(** * VCTapi: the fetch / cache / extract pipeline and the request statistics

    A shallow embedding of the Python service (src/api/async_client.py,
    src/api/async_scraper.py, src/routers/vlr_router.py and
    src/utils/performance.py) together with the properties its
    specification states about it.

    Conventions of the embedding:
    - Python [str] values are [string]s (byte strings); [str.replace],
      [str.strip] and the [in] test are written out below.
    - JSON-like results (dicts, lists, strings) are values of [pyval];
      dicts keep their insertion order, as Python's do.
    - A function that may raise returns a [res]; [try ... except Exception]
      is a match on it.
    - The network, the clocks and the third-party libraries (selectolax,
      [int], [datetime]) are inputs of the model. *)

From Stdlib Require Import ZArith QArith Lqa Floats Uint63 String Ascii List Lia Bool.
From stdpp Require Import gmap strings pretty.

Import ListNotations.
Local Open Scope string_scope.
Local Open Scope list_scope.
Local Open Scope Z_scope.

(** ** Python strings *)

(** [old.join]-style result of [s.replace("", new)]: [new] before every
    character and at the end. *)
Fixpoint intersperse (new s : string) : string :=
  match s with
  | EmptyString => new
  | String c s' => new +:+ String c (intersperse new s')
  end.

(** Left-to-right scan of [s.replace(old, new)] for a non-empty [old];
    [skip] counts the characters of a match that are still to be dropped. *)
Fixpoint replace_from (old new s : string) (skip : nat) : string :=
  match s with
  | EmptyString => EmptyString
  | String c s' =>
      match skip with
      | S k => replace_from old new s' k
      | O =>
          if String.prefix old s
          then new +:+ replace_from old new s' (String.length old - 1)
          else String c (replace_from old new s' 0)
      end
  end.

(** [s.replace(old, new)]: every non-overlapping occurrence, leftmost first. *)
Definition replace (old new s : string) : string :=
  match old with
  | EmptyString => intersperse new s
  | _ => replace_from old new s 0
  end.

(** [sub in s]. *)
Fixpoint contains (sub s : string) : bool :=
  String.prefix sub s ||
  match s with
  | EmptyString => false
  | String _ s' => contains sub s'
  end.

(** Whitespace as [str.strip()] sees it on ASCII text. *)
Definition is_space (c : ascii) : bool :=
  let n := nat_of_ascii c in
  (Nat.eqb n 32 || (Nat.leb 9 n && Nat.leb n 13) || (Nat.leb 28 n && Nat.leb n 31))%bool.

Fixpoint lstrip (s : string) : string :=
  match s with
  | EmptyString => EmptyString
  | String c s' => if is_space c then lstrip s' else s
  end.

Fixpoint rstrip (s : string) : string :=
  match s with
  | EmptyString => EmptyString
  | String c s' =>
      match rstrip s' with
      | EmptyString => if is_space c then EmptyString else String c EmptyString
      | r => String c r
      end
  end.

Definition strip (s : string) : string := rstrip (lstrip s).

(** The flag token transform of [_process_live_match_optimized] (and of
    [VlrClient._process_live_match]):
    [cls.replace(" mod-", "").replace("16", "_")]. *)
Definition flag_transform (cls : string) : string :=
  replace "16" "_" (replace " mod-" "" cls).

(** ** Python values and exceptions *)

(** The JSON-like values the service builds and returns. *)
#[warnings="-register-all"]
Inductive pyval : Type :=
| PStr (s : string)
| PList (l : list pyval)
| PDict (d : list (string * pyval)).

(** Truth value of a Python object ([if x:], [not x]). *)
Definition truthy (v : pyval) : bool :=
  match v with
  | PStr EmptyString => false
  | PList [] => false
  | PDict [] => false
  | _ => true
  end.

(** [d.get(k)] on an insertion-ordered dict; [None] is Rocq's [None]. *)
Fixpoint dict_get {V : Type} (k : string) (d : list (string * V)) : option V :=
  match d with
  | [] => None
  | (k', v) :: d' => if String.eqb k k' then Some v else dict_get k d'
  end.

(** [d[k] = v]: overwrite in place, or append a new key. *)
Fixpoint dict_set {V : Type} (k : string) (v : V) (d : list (string * V)) : list (string * V) :=
  match d with
  | [] => [(k, v)]
  | (k', v') :: d' => if String.eqb k k' then (k, v) :: d' else (k', v') :: dict_set k v d'
  end.

(** [d.update(other)]. *)
Definition dict_update {V : Type} (d other : list (string * V)) : list (string * V) :=
  fold_left (fun acc kv => dict_set (fst kv) (snd kv) acc) other d.

(** [not r.get(k)] for a result that may have no such key. *)
Definition falsy_opt (o : option pyval) : bool :=
  match o with
  | None => true
  | Some v => negb (truthy v)
  end.

(** Exceptions, with the text [str(e)] gives. [HTTPException] is FastAPI's
    (a subclass of [Exception]). *)
Inductive exn : Type :=
| AttributeError (msg : string)
| KeyError (key : string)
| IndexError (msg : string)
| TypeError (msg : string)
| ValueError (msg : string)
| NameError (msg : string)
| RuntimeError (msg : string)
| ZeroDivisionError (msg : string)
| HTTPException (status_code : Z) (detail : string).

Definition str_exn (e : exn) : string :=
  match e with
  | KeyError k => "'" +:+ k +:+ "'"
  | AttributeError m | IndexError m | TypeError m | ValueError m
  | NameError m | RuntimeError m | ZeroDivisionError m => m
  | HTTPException c d => d
  end.

(** Outcome of a call that may raise. *)
Inductive res (A : Type) : Type :=
| Ret (a : A)
| Raise (e : exn).
Arguments Ret {A} a.
Arguments Raise {A} e.

Definition bind {A B : Type} (m : res A) (k : A -> res B) : res B :=
  match m with
  | Ret a => k a
  | Raise e => Raise e
  end.

Notation "x <- m ;; k" := (bind m (fun x => k))
  (at level 100, m at next level, right associativity).

(** Inversion of a chain of binds that returned. *)
Ltac bind_inv H :=
  repeat match type of H with
         | bind ?m _ = Ret _ =>
             let x := fresh "x" in
             let E := fresh "E" in
             destruct m as [x|] eqn:E; cbn [bind] in H; [|discriminate H]
         end.

(** [try: body except Exception as e: handler(e)]. *)
Definition try_except {A : Type} (body : res A) (handler : exn -> A) : A :=
  match body with
  | Ret a => a
  | Raise e => handler e
  end.

Fixpoint mapM {A B : Type} (f : A -> res B) (l : list A) : res (list B) :=
  match l with
  | [] => Ret []
  | a :: l' => b <- f a ;; bs <- mapM f l' ;; Ret (b :: bs)
  end.

(** [l[i]] on a list. *)
Definition index {A : Type} (l : list A) (i : nat) : res A :=
  match nth_error l i with
  | Some a => Ret a
  | None => Raise (IndexError "list index out of range")
  end.

(** [d[k]] on a dict. *)
Definition subscript {V : Type} (d : list (string * V)) (k : string) : res V :=
  match dict_get k d with
  | Some v => Ret v
  | None => Raise (KeyError k)
  end.

(** ** The HTML documents, as the selectors of the scraper see them

    The parser (selectolax) is outside the repository; a node is
    represented by the answers to the queries the scraper makes on it. *)

(** [node.attributes]: a name may be present with no value ([None]). *)
Definition Attrs : Type := list (string * option string).

(** One [.h-match-team] element. *)
Record TeamNode : Type := {
  team_name_node : option string;   (* css_first(".h-match-team-name"), its text() *)
  team_flag_node : option Attrs;    (* css_first(".flag"), its attributes *)
  team_score_node : option string;  (* css_first(".h-match-team-score"), its text() *)
  team_rounds_ct : list string;     (* css(".h-match-team-rounds .mod-ct"), texts *)
  team_rounds_t : list string       (* css(".h-match-team-rounds .mod-t"), texts *)
}.

(** One [a.wf-module-item] anchor of the home page feed. *)
Record MatchNode : Type := {
  match_attributes : Attrs;
  match_teams : list TeamNode;         (* css(".h-match-team") *)
  match_eta_live : bool;               (* css_first(".h-match-eta.mod-live") is not None *)
  match_event_node : option string;    (* css_first(".h-match-preview-event") *)
  match_series_node : option string;   (* css_first(".h-match-preview-series") *)
  match_tz_node : option Attrs         (* css_first(".moment-tz-convert") *)
}.

(** A parsed page. *)
Record Document : Type := {
  doc_home_matches : list MatchNode;   (* css(".js-home-matches-upcoming a.wf-module-item") *)
  doc_header_imgs : list Attrs;        (* css(".match-header-vs img") *)
  doc_current_map : option (option string)
    (* css_first(".vm-stats-gamesnav-item.js-map-switch.mod-active.mod-live"),
       and the text of its first div when it has one *)
}.

(** [css_first(sel).text()]: [None] has no [text]. *)
Definition node_text (n : option string) : res string :=
  match n with
  | Some t => Ret t
  | None => Raise (AttributeError "'NoneType' object has no attribute 'text'")
  end.

(** [css_first(sel).attributes]. *)
Definition node_attributes (n : option Attrs) : res Attrs :=
  match n with
  | Some a => Ret a
  | None => Raise (AttributeError "'NoneType' object has no attribute 'attributes'")
  end.

(** ** Fetcher: [VlrClient._make_request] *)

(** What one [session.get(url)] gives: a response with its status and body,
    [asyncio.TimeoutError], or an [aiohttp.ClientError]. *)
Inductive response : Type :=
| HttpResponse (status : Z) (text : string)
| TimeoutError
| ClientError (msg : string).

(** The network seen by one call: the response to attempt [n] on [url]. *)
Definition Net : Type := string -> nat -> response.

(** Observable steps of a fetch. *)
Inductive event : Type :=
| EvGet (url : string) (attempt : nat)
| EvSleep (seconds : Z).

(** One pass through the [try] block of the loop: the text to return on
    status 200, and otherwise what the block did before it was left (the
    rate-limit sleep of the 429 branch; the other branches only log). *)
Definition attempt_outcome (r : response) (attempt : nat) : option string * list event :=
  match r with
  | HttpResponse status body =>
      if status =? 200 then (Some body, [])
      else if status =? 429 then (None, [EvSleep (2 ^ Z.of_nat attempt)])
      else (None, [])
  | TimeoutError => (None, [])
  | ClientError _ => (None, [])
  end.

(** [if attempt < max_retries - 1: await asyncio.sleep(2 ** attempt)]. *)
Definition backoff_sleep (max_retries attempt : nat) : list event :=
  if Z.of_nat attempt <? Z.of_nat max_retries - 1
  then [EvSleep (2 ^ Z.of_nat attempt)]
  else [].

(** The body of [for attempt in range(max_retries)], from [attempt] on, with
    [todo] iterations left; after the loop the function returns [None]. *)
Fixpoint request_loop (nt : Net) (url : string) (max_retries attempt todo : nat)
  : list event * option string :=
  match todo with
  | O => ([], None)
  | S todo' =>
      match attempt_outcome (nt url attempt) attempt with
      | (Some body, _) => ([EvGet url attempt], Some body)
      | (None, in_try) =>
          let (tr, out) := request_loop nt url max_retries (S attempt) todo' in
          (EvGet url attempt :: in_try ++ backoff_sleep max_retries attempt ++ tr, out)
      end
  end.

(** One value of [self._cache]: [{'data': ..., 'timestamp': ...}]. *)
Record CacheEntry : Type := {
  data : pyval;
  timestamp : Z        (* datetime.now() at the write, in microseconds *)
}.

(** The client object: whether [self.session] is set, and [self._cache]. *)
Record VlrClient : Type := {
  session : bool;
  _cache : gmap string CacheEntry
}.

(** [_make_request] with the steps it takes: it raises when there is no
    session, and otherwise runs the loop from attempt 0. *)
Definition _make_request_trace (self : VlrClient) (net : Net) (url : string) (max_retries : nat)
  : res (list event * option string) :=
  if session self
  then Ret (request_loop net url max_retries 0 max_retries)
  else Raise (RuntimeError "Session not initialized. Use async context manager.").

(** [await self._make_request(url, max_retries)]: the text, or [None]. *)
Definition _make_request (self : VlrClient) (net : Net) (url : string) (max_retries : nat)
  : res (option string) :=
  r <- _make_request_trace self net url max_retries ;; Ret (snd r).

(** Seconds slept after the request of attempt [i], up to the next request. *)
Fixpoint sleeps_before_next (tr : list event) : Z :=
  match tr with
  | EvSleep n :: tr' => n + sleeps_before_next tr'
  | _ => 0
  end.

Fixpoint wait_after (tr : list event) (i : nat) : Z :=
  match tr with
  | [] => 0
  | EvGet _ j :: tr' => if Nat.eqb j i then sleeps_before_next tr' else wait_after tr' i
  | EvSleep _ :: tr' => wait_after tr' i
  end.

(** Whether attempt [i] was issued at all. *)
Definition issued (tr : list event) (url : string) (i : nat) : Prop :=
  In (EvGet url i) tr.

Definition is_success (r : response) : bool :=
  match r with
  | HttpResponse status _ => status =? 200
  | _ => false
  end.

Definition is_rate_limited (r : response) : bool :=
  match r with
  | HttpResponse status _ => status =? 429
  | _ => false
  end.

(** ** Cache: [_is_cache_valid], [_get_from_cache], [_set_cache] *)

(** [self._cache_ttl = 30]. *)
Definition _cache_ttl : Z := 30.

(** [timedelta(seconds=s)], in microseconds (the resolution of [datetime]). *)
Definition timedelta_seconds (s : Z) : Z := s * 1000000.

(** [now] is the reading of [datetime.now()]; a stored [datetime] is always
    truthy, so the [if not cache_time] test never fires. *)
Definition _is_cache_valid (self : VlrClient) (key : string) (now : Z) : bool :=
  match _cache self !! key with
  | None => false
  | Some entry => now - timestamp entry <? timedelta_seconds _cache_ttl
  end.

Definition _get_from_cache (self : VlrClient) (key : string) (now : Z) : option pyval :=
  if _is_cache_valid self key now
  then data <$> (_cache self !! key)
  else None.

Definition _set_cache (self : VlrClient) (key : string) (d : pyval) (now : Z) : VlrClient :=
  {| session := session self;
     _cache := <[key := {| data := d; timestamp := now |}]> (_cache self) |}.

(** [__aenter__]: a fresh session is installed; the cache is kept. *)
Definition __aenter__ (self : VlrClient) : VlrClient :=
  {| session := true; _cache := _cache self |}.

(** What one call of the service sees of the outside: the network and the
    two readings of [datetime.now()] it may take. *)
Record World : Type := {
  net : Net;
  clock_check : Z;   (* in _is_cache_valid *)
  clock_store : Z    (* in _set_cache *)
}.

(** The library functions the scraper calls. *)
Record Libs : Type := {
  HTMLParser : string -> Document;
  (* int(s) on a str: None stands for ValueError *)
  py_int : string -> option Z;
  (* datetime.fromtimestamp(n, tz=timezone.utc).strftime("%Y-%m-%d %H:%M:%S");
     None when n is out of the platform's range *)
  strftime_utc : Z -> option string
}.

(** A match record: a dict from field names to strings. *)
Definition MatchSummary : Type := list (string * string).

Definition of_summary (m : MatchSummary) : pyval :=
  PDict (map (fun kv => (fst kv, PStr (snd kv))) m).

Definition error_envelope (message : string) : pyval :=
  PDict [("status", PStr "error"); ("message", PStr message)].

Definition success_envelope (records : list MatchSummary) : pyval :=
  PDict [("status", PStr "success"); ("data", PList (map of_summary records))].

(** The accumulators of the loop over [.h-match-team]. *)
Record TeamAcc : Type := {
  teams : list string;
  flags : list string;
  scores : list string;
  round_texts : list (string * string)    (* {"ct": ..., "t": ...} *)
}.

Fixpoint foldM {A B : Type} (f : A -> B -> res A) (acc : A) (l : list B) : res A :=
  match l with
  | [] => Ret acc
  | b :: l' => acc' <- f acc b ;; foldM f acc' l'
  end.

(** The body of [for team in match_element.css(".h-match-team")]. *)
Definition team_step (acc : TeamAcc) (team : TeamNode) : res TeamAcc :=
  name <- node_text (team_name_node team) ;;
  attrs <- node_attributes (team_flag_node team) ;;
  cls <- subscript attrs "class" ;;
  flag <- match cls with
          | Some c => Ret (flag_transform c)
          | None => Raise (AttributeError "'NoneType' object has no attribute 'replace'")
          end ;;
  score <- node_text (team_score_node team) ;;
  let round_text_ct := match team_rounds_ct team with x :: _ => strip x | [] => "N/A" end in
  let round_text_t := match team_rounds_t team with x :: _ => strip x | [] => "N/A" end in
  Ret {| teams := teams acc ++ [strip name];
         flags := flags acc ++ [flag];
         scores := scores acc ++ [strip score];
         round_texts := round_texts acc ++ [(round_text_ct, round_text_t)] |}.

(** [f"klurgecustom{idx + 1}" if idx > 0 else "klurgecustom"]. *)
Definition key_name (idx : nat) : string :=
  match idx with
  | O => "klurgecustom"
  | S _ => "klurgecustom" +:+ pretty (S idx)
  end.

(** [f"{match['team1']} {match['score1']} : {match['team2']} {match['score2']}"]. *)
Definition score_line (m : MatchSummary) : res string :=
  team1 <- subscript m "team1" ;;
  score1 <- subscript m "score1" ;;
  team2 <- subscript m "team2" ;;
  score2 <- subscript m "score2" ;;
  Ret (team1 +:+ " " +:+ score1 +:+ " : " +:+ team2 +:+ " " +:+ score2).

(** A record has the four fields the annotation reads. *)
Definition scorable (r : MatchSummary) : Prop :=
  exists line, score_line r = Ret line.

(** [for idx, match in enumerate(valid_results): match[key_name] = ...],
    from index [idx] on. *)
Fixpoint annotate (idx : nat) (valid_results : list MatchSummary) : res (list MatchSummary) :=
  match valid_results with
  | [] => Ret []
  | m :: rest =>
      line <- score_line m ;;
      rest' <- annotate (S idx) rest ;;
      Ret (dict_set (key_name idx) line m :: rest')
  end.

(** The record returned when no match is live. *)
Definition no_game_match : MatchSummary :=
  [ ("team1", ""); ("team2", ""); ("flag1", ""); ("flag2", "");
    ("score1", ""); ("score2", "");
    ("team1_round_ct", ""); ("team1_round_t", "");
    ("team2_round_ct", ""); ("team2_round_t", "");
    ("time_until_match", ""); ("match_event", ""); ("match_series", "");
    ("unix_timestamp", ""); ("match_page", "");
    ("team1_logo", ""); ("team2_logo", "");
    ("map_number", ""); ("current_map", "");
    ("klurgecustom", "no game is live") ].

Section Scraping.
Context (L : Libs).

(** [VlrClient._get_match_details]: logos, current map, map number.
    Every exception ends in the [except] branch. The module never
    imports [re], so once the live map tab is found the lookup of [re]
    (or, before it, [.text()] on the default) raises. *)
Definition _get_match_details (self : VlrClient) (nt : Net) (url_path : string)
  : list string * string * string :=
  try_except
    (html_content <- _make_request self nt url_path 3 ;;
     match html_content with
     | None | Some EmptyString => Ret ([], "Unknown", "Unknown")
     | Some html_text =>
         let match_html := HTMLParser L html_text in
         team_logos <-
           mapM (fun img : Attrs =>
                   match dict_get "src" img with
                   | None => Ret ("https:" +:+ "")
                   | Some (Some src) => Ret ("https:" +:+ src)
                   | Some None =>
                       Raise (TypeError "can only concatenate str (not NoneType) to str")
                   end)
                (doc_header_imgs match_html) ;;
         match doc_current_map match_html with
         | None => Ret (team_logos, "Unknown", "Unknown")
         | Some None => Raise (AttributeError "'str' object has no attribute 'text'")
         | Some (Some _) => Raise (NameError "name 're' is not defined")
         end
     end)
    (fun _ => ([], "Unknown", "Unknown")).

(** The listing part of [_process_live_match_optimized]: everything up to
    the base [match_data] dict, with the page URL. *)
Definition base_match_data (match_element : MatchNode) : res (MatchSummary * string) :=
  acc <- foldM team_step
           {| teams := []; flags := []; scores := []; round_texts := [] |}
           (match_teams match_element) ;;
  match_event <- node_text (match_event_node match_element) ;;
  match_series <- node_text (match_series_node match_element) ;;
  tz_attrs <- node_attributes (match_tz_node match_element) ;;
  ts_attr <- subscript tz_attrs "data-utc-ts" ;;
  ts <- match ts_attr with
        | None => Raise (TypeError "int() argument must be a string, not 'NoneType'")
        | Some s =>
            match py_int L s with
            | Some n => Ret n
            | None => Raise (ValueError "invalid literal for int() with base 10")
            end
        end ;;
  timestamp_text <- match strftime_utc L ts with
                    | Some s => Ret s
                    | None => Raise (ValueError "year is out of range")
                    end ;;
  href <- subscript (match_attributes match_element) "href" ;;
  url_path <- match href with
              | Some h => Ret ("https://www.vlr.gg/" +:+ h)
              | None => Raise (TypeError "can only concatenate str (not NoneType) to str")
              end ;;
  team1 <- index (teams acc) 0 ;;
  team2 <- index (teams acc) 1 ;;
  flag1 <- index (flags acc) 0 ;;
  flag2 <- index (flags acc) 1 ;;
  score1 <- index (scores acc) 0 ;;
  score2 <- index (scores acc) 1 ;;
  let round0 := nth_error (round_texts acc) 0 in
  let round1 := nth_error (round_texts acc) 1 in
  Ret ([ ("team1", team1); ("team2", team2);
         ("flag1", flag1); ("flag2", flag2);
         ("score1", score1); ("score2", score2);
         ("team1_round_ct", match round0 with Some r => fst r | None => "N/A" end);
         ("team1_round_t", match round0 with Some r => snd r | None => "N/A" end);
         ("team2_round_ct", match round1 with Some r => fst r | None => "N/A" end);
         ("team2_round_t", match round1 with Some r => snd r | None => "N/A" end);
         ("time_until_match", "LIVE");
         ("match_event", strip match_event);
         ("match_series", strip match_series);
         ("unix_timestamp", timestamp_text);
         ("match_page", url_path);
         ("team1_logo", ""); ("team2_logo", "");
         ("map_number", "Unknown"); ("current_map", "Unknown") ],
       url_path).

(** [match_data.update({...})] with the details of the match page. *)
Definition merge_details (match_data : MatchSummary)
    (details : list string * string * string) : MatchSummary :=
  let '(team_logos, current_map, map_number) := details in
  dict_update match_data
    [ ("team1_logo", match nth_error team_logos 0 with Some x => x | None => "" end);
      ("team2_logo", match nth_error team_logos 1 with Some x => x | None => "" end);
      ("map_number", map_number);
      ("current_map", current_map) ].

(** [AsyncVlrScraper._process_live_match_optimized]. The inner [try]
    around the details never reaches its [except]: [_get_match_details]
    catches every exception itself. *)
Definition _process_live_match_optimized (self : VlrClient) (nt : Net)
    (match_element : MatchNode) : MatchSummary :=
  try_except
    (base <- base_match_data match_element ;;
     let (match_data, url_path) := base in
     Ret (merge_details match_data (_get_match_details self nt url_path)))
    (fun _ => []).

(** [r for r in results if isinstance(r, dict) and r]. *)
Definition valid_results (results : list MatchSummary) : list MatchSummary :=
  List.filter (fun r => match r with [] => false | _ => true end) results.

(** [AsyncVlrScraper.get_live_matches_optimized]. The tasks given to
    [asyncio.gather] share nothing but the network, so their results are
    those of running them one after the other, in listing order. *)
Definition get_live_matches_optimized (self : VlrClient) (nt : Net) : pyval :=
  try_except
    (html_content <- _make_request self nt "https://www.vlr.gg" 3 ;;
     match html_content with
     | None | Some EmptyString => Ret (error_envelope "Failed to fetch live matches")
     | Some html_text =>
         let html := HTMLParser L html_text in
         let matches := doc_home_matches html in
         let live_matches := List.filter match_eta_live matches in
         match live_matches with
         | [] => Ret (success_envelope [no_game_match])
         | _ =>
             let results := map (_process_live_match_optimized self nt) live_matches in
             annotated <- annotate 0 (valid_results results) ;;
             Ret (success_envelope annotated)
         end
     end)
    (fun e => error_envelope (str_exn e)).

(** [VlrClient.get_live_matches]. The scraper returns its failures as
    values, so the [except] branch is only reached by a raise of the
    call itself. *)
Definition get_live_matches (self : VlrClient) (w : World) : VlrClient * pyval :=
  let cache_key := "live_matches" in
  match _get_from_cache self cache_key (clock_check w) with
  | Some cached_data =>
      if truthy cached_data then (self, cached_data)
      else
        let result := get_live_matches_optimized self (net w) in
        (_set_cache self cache_key result (clock_store w), result)
  | None =>
      let result := get_live_matches_optimized self (net w) in
      (_set_cache self cache_key result (clock_store w), result)
  end.

End Scraping.

(** ** The HTTP layer: src/routers/vlr_router.py *)

Module vlr_router.

Definition no_live_matches : pyval :=
  PDict [ ("status", PStr "success");
          ("message", PStr "No live matches currently available.");
          ("data", PList []) ].

(** [not result or (isinstance(result, dict) and not result.get('data'))]. *)
Definition lacks_data (result : pyval) : bool :=
  negb (truthy result) ||
  match result with
  | PDict d => falsy_opt (dict_get "data" d)
  | _ => false
  end.

(** The handler of [GET /matches/live], under [async with ... as client].
    Nothing in its [try] raises in this model, so the
    [HTTPException(500)] of its [except] is never produced. *)
Definition get_live_matches (L : Libs) (client : VlrClient) (w : World)
  : VlrClient * res pyval :=
  let client := __aenter__ client in
  let (client, result) := get_live_matches L client w in
  if lacks_data result
  then (client, Ret no_live_matches)
  else (client, Ret result).

End vlr_router.

(** ** Stats Tracker: src/utils/performance.py *)

Module performance.

(** The arithmetic [track_request] does on the average. Python computes
    it in binary64; the exact rationals are the reference the running
    mean is stated against. *)
Class PyNumber (R : Type) : Type := {
  of_int : Z -> R;
  num_add : R -> R -> R;
  num_sub : R -> R -> R;
  num_mul : R -> R -> R;
  num_div : R -> R -> R
}.

#[global] Instance Q_number : PyNumber Q := {
  of_int := inject_Z;
  num_add := Qplus;
  num_sub := Qminus;
  num_mul := Qmult;
  num_div := Qdiv
}.

(** [float(n)] for the counters (exact below 2^53). *)
Definition float_of_int (n : Z) : float :=
  if n <? 0
  then PrimFloat.opp (PrimFloat.of_uint63 (Uint63.of_Z (- n)))
  else PrimFloat.of_uint63 (Uint63.of_Z n).

#[global] Instance float_number : PyNumber float := {
  of_int := float_of_int;
  num_add := PrimFloat.add;
  num_sub := PrimFloat.sub;
  num_mul := PrimFloat.mul;
  num_div := PrimFloat.div
}.

(** The dict [performance_stats]. *)
Record Stats (R : Type) : Type := {
  total_requests : Z;
  successful_requests : Z;
  failed_requests : Z;
  average_response_time : R;
  cache_hits : Z;
  cache_misses : Z
}.
Arguments total_requests {R} _.
Arguments successful_requests {R} _.
Arguments failed_requests {R} _.
Arguments average_response_time {R} _.
Arguments cache_hits {R} _.
Arguments cache_misses {R} _.

Section Tracker.
Context {R : Type} `{PyNumber R}.

(** The initial binding of the global, and what
    [reset_performance_stats] rebinds it to. *)
Definition performance_stats : Stats R :=
  {| total_requests := 0;
     successful_requests := 0;
     failed_requests := 0;
     average_response_time := of_int 0;
     cache_hits := 0;
     cache_misses := 0 |}.

(** [performance_stats["total_requests"] += 1], before the call. *)
Definition on_enter (st : Stats R) : Stats R :=
  {| total_requests := total_requests st + 1;
     successful_requests := successful_requests st;
     failed_requests := failed_requests st;
     average_response_time := average_response_time st;
     cache_hits := cache_hits st;
     cache_misses := cache_misses st |}.

(** [performance_stats["successful_requests"] += 1]. *)
Definition count_success (st : Stats R) : Stats R :=
  {| total_requests := total_requests st;
     successful_requests := successful_requests st + 1;
     failed_requests := failed_requests st;
     average_response_time := average_response_time st;
     cache_hits := cache_hits st;
     cache_misses := cache_misses st |}.

(** The update of ["average_response_time"]. *)
Definition update_average (execution_time : R) (st : Stats R) : Stats R :=
  let total_successful := successful_requests st in
  let current_avg := average_response_time st in
  {| total_requests := total_requests st;
     successful_requests := successful_requests st;
     failed_requests := failed_requests st;
     average_response_time :=
       num_div (num_add (num_mul current_avg (of_int (total_successful - 1))) execution_time)
               (of_int total_successful);
     cache_hits := cache_hits st;
     cache_misses := cache_misses st |}.

(** The [except] branch: [performance_stats["failed_requests"] += 1]. *)
Definition on_exception (st : Stats R) : Stats R :=
  {| total_requests := total_requests st;
     successful_requests := successful_requests st;
     failed_requests := failed_requests st + 1;
     average_response_time := average_response_time st;
     cache_hits := cache_hits st;
     cache_misses := cache_misses st |}.

(** [track_request(func)] called once: [func] is the outcome of the
    wrapped call, [start_time] and [end_time] the readings of
    [time.time()] before and after it. The async and the sync wrapper
    have the same body. A division by a zero count raises inside the
    [try] and is handled like a failure of the call. *)
Definition track_request {A : Type} (func : res A) (start_time end_time : R)
    (st : Stats R) : Stats R * res A :=
  let st := on_enter st in
  match func with
  | Ret result =>
      let st := count_success st in
      let execution_time := num_sub end_time start_time in
      if successful_requests st =? 0
      then (on_exception st, Raise (ZeroDivisionError "float division by zero"))
      else (update_average execution_time st, Ret result)
  | Raise e => (on_exception st, Raise e)
  end.

(** [performance_stats.copy()]. *)
Definition get_performance_stats (st : Stats R) : Stats R := st.

Definition reset_performance_stats (st : Stats R) : Stats R := performance_stats.

(** The operations on the global, one after the other. *)
Inductive op : Type :=
| OpTrack (func : res unit) (start_time end_time : R)
| OpGet
| OpReset.

Definition step (st : Stats R) (o : op) : Stats R :=
  match o with
  | OpTrack func start_time end_time => fst (track_request func start_time end_time st)
  | OpGet => st
  | OpReset => reset_performance_stats st
  end.

Definition run (ops : list op) (st : Stats R) : Stats R := fold_left step ops st.

(** Number of tracked calls of a history that returned. *)
Fixpoint returned (ops : list op) : Z :=
  match ops with
  | [] => 0
  | OpTrack (Ret _) _ _ :: ops' => 1 + returned ops'
  | _ :: ops' => returned ops'
  end.

(** Sum of the elapsed times of the tracked calls that returned. *)
Fixpoint elapsed_sum (ops : list op) : R :=
  match ops with
  | [] => of_int 0
  | OpTrack (Ret _) start_time end_time :: ops' =>
      num_add (num_sub end_time start_time) (elapsed_sum ops')
  | _ :: ops' => elapsed_sum ops'
  end.

(** A history of tracked calls only: outcome, start and end reading
    of each. *)
Definition calls (l : list (res unit * R * R)) : list op :=
  map (fun c => OpTrack (fst (fst c)) (snd (fst c)) (snd c)) l.

(** [total_requests == successful_requests + failed_requests]. *)
Definition balanced (st : Stats R) : Prop :=
  total_requests st = successful_requests st + failed_requests st.

(** What holds of the counters of every state reached from the
    initial one. *)
Definition sound (st : Stats R) : Prop :=
  0 <= successful_requests st /\ 0 <= failed_requests st /\ balanced st.

End Tracker.

End performance.

(** ** Sample pages and networks *)

(** [VlrClient()]. *)
Definition new_client : VlrClient := {| session := false; _cache := ∅ |}.

Definition always (r : response) : Net := fun _ _ => r.

Definition net_down : Net := always (HttpResponse 503 "").

Definition net_rate_limited : Net := always (HttpResponse 429 "").

(** Status 200 with the given text for the listed URLs, 404 for the rest. *)
Definition serve (pages : list (string * string)) : Net :=
  fun url _ =>
    match dict_get url pages with
    | Some body => HttpResponse 200 body
    | None => HttpResponse 404 ""
    end.

Definition team_node (name cls score : string) : TeamNode :=
  {| team_name_node := Some name;
     team_flag_node := Some [("class", Some cls)];
     team_score_node := Some score;
     team_rounds_ct := ["7"];
     team_rounds_t := [] |}.

Definition match_node (live : bool) (href : string) (event_node : option string)
    (t1 t2 : TeamNode) : MatchNode :=
  {| match_attributes := [("href", Some href)];
     match_teams := [t1; t2];
     match_eta_live := live;
     match_event_node := event_node;
     match_series_node := Some "Grand Final";
     match_tz_node := Some [("data-utc-ts", Some "1700000000")] |}.

Definition sample_match_a : MatchNode :=
  match_node true "/1/sen-vs-fnc" (Some " Champions ")
    (team_node "Sentinels" "flag mod-us mod-16" "1")
    (team_node "Fnatic" "flag mod-eu mod-16" "0").

(** A live row with no event element: its extraction raises. *)
Definition sample_match_b : MatchNode :=
  match_node true "/2/prx-vs-drx" None
    (team_node "Paper Rex" "flag mod-sg mod-16" "0")
    (team_node "DRX" "flag mod-kr mod-16" "0").

(** A live row whose match page the sample network does not serve. *)
Definition sample_match_c : MatchNode :=
  match_node true "/3/loud-vs-nrg" (Some "Masters")
    (team_node "LOUD" "flag mod-br mod-16" "2")
    (team_node "NRG" "flag mod-us mod-16" "1").

Definition sample_match_upcoming : MatchNode :=
  match_node false "/4/tl-vs-th" (Some "Challengers")
    (team_node "Liquid" "flag mod-eu mod-16" "")
    (team_node "Heretics" "flag mod-eu mod-16" "").

Definition home_idle : Document :=
  {| doc_home_matches := [sample_match_upcoming];
     doc_header_imgs := [];
     doc_current_map := None |}.

Definition home_live : Document :=
  {| doc_home_matches := [sample_match_a; sample_match_b; sample_match_upcoming; sample_match_c];
     doc_header_imgs := [];
     doc_current_map := None |}.

Definition match_page : Document :=
  {| doc_home_matches := [];
     doc_header_imgs := [[("src", Some "//owcdn.net/img/sen.png")];
                         [("src", Some "//owcdn.net/img/fnc.png")]];
     doc_current_map := None |}.

Definition sample_libs : Libs :=
  {| HTMLParser := fun text =>
       if String.eqb text "<home idle>" then home_idle
       else if String.eqb text "<home live>" then home_live
       else match_page;
     py_int := fun text => if String.eqb text "1700000000" then Some 1700000000 else None;
     strftime_utc := fun n => if n =? 1700000000 then Some "2023-11-14 22:13:20" else None |}.

Definition net_idle : Net := serve [("https://www.vlr.gg", "<home idle>")].

Definition net_live : Net :=
  serve [("https://www.vlr.gg", "<home live>");
         ("https://www.vlr.gg//1/sen-vs-fnc", "<match page>")].

(** ** What the extraction reads *)

(** The text of the first round element, or ["N/A"] when there is none. *)
Definition round_text (nodes : list string) : string :=
  match nodes with
  | x :: _ => strip x
  | [] => "N/A"
  end.

(** The class string of the [.flag] element of a team, when it has one. *)
Definition team_class (t : TeamNode) : option string :=
  match team_flag_node t with
  | Some attrs =>
      match dict_get "class" attrs with
      | Some (Some c) => Some c
      | _ => None
      end
  | None => None
  end.

(** A team element has the three sub-elements the loop dereferences. *)
Definition team_readable (t : TeamNode) : bool :=
  match team_name_node t, team_class t, team_score_node t with
  | Some _, Some _, Some _ => true
  | _, _, _ => false
  end.

Definition name_of (t : TeamNode) : string :=
  match team_name_node t with Some n => strip n | None => "" end.

Definition flag_of (t : TeamNode) : string :=
  match team_class t with Some c => flag_transform c | None => "" end.

Definition score_of (t : TeamNode) : string :=
  match team_score_node t with Some x => strip x | None => "" end.

(** The timestamp text of a row: the [data-utc-ts] attribute read by
    [int] and formatted, when each step has a value. *)
Definition timestamp_of (L : Libs) (m : MatchNode) : option string :=
  match match_tz_node m with
  | Some attrs =>
      match dict_get "data-utc-ts" attrs with
      | Some (Some s) =>
          match py_int L s with
          | Some n => strftime_utc L n
          | None => None
          end
      | _ => None
      end
  | None => None
  end.

(** The [href] of a row, when it has one with a value. *)
Definition href_of (m : MatchNode) : option string :=
  match dict_get "href" (match_attributes m) with
  | Some (Some h) => Some h
  | _ => None
  end.

(** Every step of the extraction of a row has what it needs. *)
Definition extractable (L : Libs) (m : MatchNode) : bool :=
  forallb team_readable (match_teams m)
  && (2 <=? length (match_teams m))%nat
  && match match_event_node m with Some _ => true | None => false end
  && match match_series_node m with Some _ => true | None => false end
  && match timestamp_of L m with Some _ => true | None => false end
  && match href_of m with Some _ => true | None => false end.

(** The record of an extractable row, field by field. *)
Definition extracted_record (L : Libs) (m : MatchNode) : MatchSummary :=
  let t1 := nth 0 (match_teams m) {| team_name_node := None; team_flag_node := None;
                                     team_score_node := None; team_rounds_ct := [];
                                     team_rounds_t := [] |} in
  let t2 := nth 1 (match_teams m) t1 in
  [ ("team1", name_of t1); ("team2", name_of t2);
    ("flag1", flag_of t1); ("flag2", flag_of t2);
    ("score1", score_of t1); ("score2", score_of t2);
    ("team1_round_ct", round_text (team_rounds_ct t1));
    ("team1_round_t", round_text (team_rounds_t t1));
    ("team2_round_ct", round_text (team_rounds_ct t2));
    ("team2_round_t", round_text (team_rounds_t t2));
    ("time_until_match", "LIVE");
    ("match_event", match match_event_node m with Some x => strip x | None => "" end);
    ("match_series", match match_series_node m with Some x => strip x | None => "" end);
    ("unix_timestamp", match timestamp_of L m with Some x => x | None => "" end);
    ("match_page", "https://www.vlr.gg/" +:+ match href_of m with Some h => h | None => "" end);
    ("team1_logo", ""); ("team2_logo", "");
    ("map_number", "Unknown"); ("current_map", "Unknown") ].

(** The field names of a match record, in the order the scraper writes
    them. *)
Definition summary_fields : list string :=
  [ "team1"; "team2"; "flag1"; "flag2"; "score1"; "score2";
    "team1_round_ct"; "team1_round_t"; "team2_round_ct"; "team2_round_t";
    "time_until_match"; "match_event"; "match_series"; "unix_timestamp";
    "match_page"; "team1_logo"; "team2_logo"; "map_number"; "current_map" ].

(** [match.get(k, "")] on a match record. *)
Definition field (k : string) (r : MatchSummary) : string :=
  match dict_get k r with Some v => v | None => "" end.

(** The score line of a record, as the annotation formats it. *)
Definition line_of (r : MatchSummary) : string :=
  field "team1" r +:+ " " +:+ field "score1" r +:+ " : " +:+
  field "team2" r +:+ " " +:+ field "score2" r.

(** A record with its annotation as last field. *)
Definition annotated (idx : nat) (r : MatchSummary) : MatchSummary :=
  r ++ [(key_name idx, line_of r)].

(** A result of the scraper: an error result or a success result. *)
Definition is_envelope (v : pyval) : Prop :=
  (exists message, v = error_envelope message) \/
  (exists records, v = success_envelope records).

(** What the cache holds under ["live_matches"] is a result of the
    scraper. *)
Definition cache_ok (self : VlrClient) : Prop :=
  forall entry, _cache self !! "live_matches" = Some entry -> is_envelope (data entry).

(** The logo URL of an image element whose [src] has a value, or none. *)
Definition logo_of (img : Attrs) : string :=
  match dict_get "src" img with
  | Some (Some src) => "https:" +:+ src
  | _ => "https:" +:+ ""
  end.

(** No [src] attribute without a value. *)
Definition src_usable (img : Attrs) : bool :=
  match dict_get "src" img with
  | Some None => false
  | _ => true
  end.

(** More sample pages: a listing whose only live row cannot be
    extracted, and a match page with the live map tab. *)
Definition home_broken : Document :=
  {| doc_home_matches := [sample_match_b; sample_match_upcoming];
     doc_header_imgs := [];
     doc_current_map := None |}.

Definition match_page_with_map : Document :=
  {| doc_home_matches := [];
     doc_header_imgs := [[("src", Some "//owcdn.net/img/sen.png")];
                         [("src", Some "//owcdn.net/img/fnc.png")]];
     doc_current_map := Some (Some "2Ascent") |}.

Definition sample_libs_bis : Libs :=
  {| HTMLParser := fun text =>
       if String.eqb text "<home broken>" then home_broken
       else if String.eqb text "<home live>" then home_live
       else match_page_with_map;
     py_int := py_int sample_libs;
     strftime_utc := strftime_utc sample_libs |}.

Definition net_broken : Net := serve [("https://www.vlr.gg", "<home broken>")].

(** ** What a fetch costs *)

(** The attempts a fetch issued, in order. *)
Fixpoint attempts_of (tr : list event) : list nat :=
  match tr with
  | [] => []
  | EvGet _ i :: tr' => i :: attempts_of tr'
  | EvSleep _ :: tr' => attempts_of tr'
  end.

(** The seconds a fetch slept. *)
Fixpoint total_sleep (tr : list event) : Z :=
  match tr with
  | [] => 0
  | EvGet _ _ :: tr' => total_sleep tr'
  | EvSleep n :: tr' => n + total_sleep tr'
  end.

(** Attempt [k] is the first one answered with status 200. *)
Definition first_success (nt : Net) (url : string) (k : nat) : Prop :=
  is_success (nt url k) = true /\
  forall j, (j < k)%nat -> is_success (nt url j) = false.

(** ** Match lookup: [get_match_by_id] and the direct scrape *)

(** [x in v] for a str [x]: substring of a str, element of a list, key of
    a dict. *)
Definition py_in (x : string) (v : pyval) : bool :=
  match v with
  | PStr s => contains x s
  | PList l => existsb (fun e => match e with PStr s => String.eqb x s | _ => false end) l
  | PDict d => existsb (fun kv => String.eqb x (fst kv)) d
  end.

(** What [for item in v] goes through: the elements of a list, the
    characters of a str, the keys of a dict. *)
Definition py_iter (v : pyval) : list pyval :=
  match v with
  | PList l => l
  | PStr s => map (fun c => PStr (String c EmptyString)) (list_ascii_of_string s)
  | PDict d => map (fun kv => PStr (fst kv)) d
  end.

(** [r.get('status') == text]. *)
Definition status_is (text : string) (d : list (string * pyval)) : bool :=
  match dict_get "status" d with
  | Some (PStr s) => String.eqb s text
  | _ => false
  end.

(** The loop of [get_match_by_id_optimized] over the live records: the
    first one whose [match_page] has [match_id] in it. An item that is not
    a dict has no [get]. *)
Fixpoint find_match (match_id : string) (items : list pyval) : res (option pyval) :=
  match items with
  | [] => Ret None
  | PDict d :: rest =>
      let page := match dict_get "match_page" d with Some v => v | None => PStr "" end in
      if py_in match_id page then Ret (Some (PDict d)) else find_match match_id rest
  | _ :: _ => Raise (AttributeError "object has no attribute 'get'")
  end.

(** The record [_get_match_directly] starts from. *)
Definition placeholder_match (url : string) : MatchSummary :=
  [ ("team1", "Unknown"); ("team2", "Unknown");
    ("flag1", ""); ("flag2", "");
    ("score1", "0"); ("score2", "0");
    ("team1_logo", ""); ("team2_logo", "");
    ("team1_round_ct", "N/A"); ("team1_round_t", "N/A");
    ("team2_round_ct", "N/A"); ("team2_round_t", "N/A");
    ("map_number", "Unknown"); ("current_map", "Unknown");
    ("time_until_match", "Unknown");
    ("match_event", "Unknown"); ("match_series", "Unknown");
    ("unix_timestamp", "");
    ("match_page", url) ].

(** [if len(elements) >= 2: match_data[k1] = elements[0].text().strip();
    match_data[k2] = elements[1].text().strip()]. *)
Definition set_first_two (k1 k2 : string) (texts : list string) (match_data : MatchSummary)
  : MatchSummary :=
  match texts with
  | a :: b :: _ => dict_set k2 (strip b) (dict_set k1 (strip a) match_data)
  | _ => match_data
  end.

(** ["https:" + img.attributes.get("src", "")]. *)
Definition logo_url (img : Attrs) : res string :=
  match dict_get "src" img with
  | None => Ret ("https:" +:+ "")
  | Some (Some src) => Ret ("https:" +:+ src)
  | Some None => Raise (TypeError "can only concatenate str (not NoneType) to str")
  end.

(** The logo part of the inner [try] of [_get_match_directly]: a raise
    leaves the assignments made before it. *)
Definition set_logos (imgs : list Attrs) (match_data : MatchSummary) : MatchSummary :=
  match imgs with
  | a :: b :: _ =>
      match logo_url a with
      | Raise _ => match_data
      | Ret logo1 =>
          let match_data := dict_set "team1_logo" logo1 match_data in
          match logo_url b with
          | Raise _ => match_data
          | Ret logo2 => dict_set "team2_logo" logo2 match_data
          end
      end
  | _ => match_data
  end.

(** The answers of a parsed match page to
    [css(".match-header-vs .team-name")] and [css(".match-header-vs .score")]:
    the texts of the elements found. *)
Record MatchHeader : Type := {
  header_team_names : list string;
  header_scores : list string
}.

(** What an endpoint hands to FastAPI: a JSON body, or an [HTTPException]
    with its status code and detail. *)
Inductive http_outcome : Type :=
| Json (body : pyval)
| HttpError (status_code : Z) (detail : pyval).

Section Lookup.
Context (L : Libs) (match_header : string -> MatchHeader).

(** [AsyncVlrScraper._get_match_directly]. *)
Definition _get_match_directly (self : VlrClient) (nt : Net) (match_id : string) : pyval :=
  let url := "https://www.vlr.gg/" +:+ match_id in
  try_except
    (html_content <- _make_request self nt url 3 ;;
     match html_content with
     | None | Some EmptyString =>
         Ret (error_envelope ("Match " +:+ match_id +:+ " not found"))
     | Some html_text =>
         let html := HTMLParser L html_text in
         let header := match_header html_text in
         let match_data := placeholder_match url in
         let match_data := set_first_two "team1" "team2" (header_team_names header) match_data in
         let match_data := set_first_two "score1" "score2" (header_scores header) match_data in
         let match_data := set_logos (doc_header_imgs html) match_data in
         Ret (PDict [("status", PStr "success"); ("data", of_summary match_data)])
     end)
    (fun e => error_envelope (str_exn e)).

(** The search of [get_match_by_id_optimized] in the live matches. *)
Definition search_live (live_matches : pyval) (match_id : string) : res (option pyval) :=
  match live_matches with
  | PDict d =>
      if status_is "success" d
      then find_match match_id
             (py_iter (match dict_get "data" d with Some v => v | None => PList [] end))
      else Ret None
  | _ => Raise (AttributeError "object has no attribute 'get'")
  end.

(** [AsyncVlrScraper.get_match_by_id_optimized]. *)
Definition get_match_by_id_optimized (self : VlrClient) (w : World) (match_id : string)
  : VlrClient * pyval :=
  let (self, live_matches) := get_live_matches L self w in
  match search_live live_matches match_id with
  | Ret (Some found) => (self, PDict [("status", PStr "success"); ("data", found)])
  | Ret None => (self, _get_match_directly self (net w) match_id)
  | Raise e => (self, error_envelope (str_exn e))
  end.

(** [VlrClient.get_match_by_id]: the scraper catches its exceptions
    itself, so the [except] of the client has nothing to catch. *)
Definition get_match_by_id (self : VlrClient) (w : World) (match_id : string)
  : VlrClient * pyval :=
  get_match_by_id_optimized self w match_id.

(** The handler of [GET /matches/{match_id}] in vlr_router.py. A result
    that is no dict has no [get]; that raise ends in the last [except]. *)
Definition get_match_details (client : VlrClient) (w : World) (match_id : string)
  : VlrClient * http_outcome :=
  let client := __aenter__ client in
  let (client, result) := get_match_by_id client w match_id in
  match result with
  | PDict d =>
      if status_is "error" d
      then (client,
            HttpError 404 (match dict_get "message" d with
                           | Some v => v
                           | None => PStr "Match not found"
                           end))
      else (client, Json result)
  | _ => (client, HttpError 500 (PStr "Internal server error"))
  end.

(** [VlrClient._process_live_match], the variant kept in the client: the
    details are fetched before the record is built. *)
Definition _process_live_match (self : VlrClient) (nt : Net) (match_element : MatchNode)
  : MatchSummary :=
  try_except
    (acc <- foldM team_step
              {| teams := []; flags := []; scores := []; round_texts := [] |}
              (match_teams match_element) ;;
     match_event <- node_text (match_event_node match_element) ;;
     match_series <- node_text (match_series_node match_element) ;;
     tz_attrs <- node_attributes (match_tz_node match_element) ;;
     ts_attr <- subscript tz_attrs "data-utc-ts" ;;
     ts <- match ts_attr with
           | None => Raise (TypeError "int() argument must be a string, not 'NoneType'")
           | Some s =>
               match py_int L s with
               | Some n => Ret n
               | None => Raise (ValueError "invalid literal for int() with base 10")
               end
           end ;;
     timestamp_text <- match strftime_utc L ts with
                       | Some s => Ret s
                       | None => Raise (ValueError "year is out of range")
                       end ;;
     href <- subscript (match_attributes match_element) "href" ;;
     url_path <- match href with
                 | Some h => Ret ("https://www.vlr.gg/" +:+ h)
                 | None => Raise (TypeError "can only concatenate str (not NoneType) to str")
                 end ;;
     let '(team_logos, current_map, map_number) := _get_match_details L self nt url_path in
     let round0 := nth_error (round_texts acc) 0 in
     let round1 := nth_error (round_texts acc) 1 in
     team1 <- index (teams acc) 0 ;;
     team2 <- index (teams acc) 1 ;;
     flag1 <- index (flags acc) 0 ;;
     flag2 <- index (flags acc) 1 ;;
     score1 <- index (scores acc) 0 ;;
     score2 <- index (scores acc) 1 ;;
     Ret [ ("team1", team1); ("team2", team2);
           ("flag1", flag1); ("flag2", flag2);
           ("team1_logo", match nth_error team_logos 0 with Some x => x | None => "" end);
           ("team2_logo", match nth_error team_logos 1 with Some x => x | None => "" end);
           ("score1", score1); ("score2", score2);
           ("team1_round_ct", match round0 with Some r => fst r | None => "N/A" end);
           ("team1_round_t", match round0 with Some r => snd r | None => "N/A" end);
           ("team2_round_ct", match round1 with Some r => fst r | None => "N/A" end);
           ("team2_round_t", match round1 with Some r => snd r | None => "N/A" end);
           ("map_number", map_number);
           ("current_map", current_map);
           ("time_until_match", "LIVE");
           ("match_event", strip match_event);
           ("match_series", strip match_series);
           ("unix_timestamp", timestamp_text);
           ("match_page", url_path) ])
    (fun _ => []).

End Lookup.

(** The header of the sample match page: two team names, one score. *)
Definition sample_header : string -> MatchHeader :=
  fun _ => {| header_team_names := [" Sentinels "; "Fnatic"]; header_scores := ["1"] |}.

(** ** Requests in flight *)

Module inflight.
Import performance.

Section Phases.
Context {R : Type} `{PyNumber R}.

(** The two halves of the async wrapper of [track_request], on either
    side of its [await func(...)]: other requests may run in between. *)
Inductive phase : Type :=
| Enter
| Leave (func : res unit) (start_time end_time : R).

(** The part of the wrapper after the [await]. *)
Definition on_leave (func : res unit) (start_time end_time : R) (st : Stats R) : Stats R :=
  match func with
  | Ret _ =>
      let st := count_success st in
      if successful_requests st =? 0
      then on_exception st
      else update_average (num_sub end_time start_time) st
  | Raise _ => on_exception st
  end.

Definition phase_step (st : Stats R) (p : phase) : Stats R :=
  match p with
  | Enter => on_enter st
  | Leave func start_time end_time => on_leave func start_time end_time st
  end.

Definition run_phases (ps : list phase) (st : Stats R) : Stats R :=
  fold_left phase_step ps st.

(** Requests entered and not yet left. *)
Fixpoint pending (ps : list phase) : Z :=
  match ps with
  | [] => 0
  | Enter :: ps' => 1 + pending ps'
  | Leave _ _ _ :: ps' => pending ps' - 1
  end.

End Phases.

End inflight.

(** Every returned call of a history took between [lo] and [hi]
    seconds. *)
Definition elapsed_within (lo hi : Q) (l : list (res unit * Q * Q)) : Prop :=
  Forall (fun c =>
            match fst (fst c) with
            | Ret _ => (lo <= snd c - snd (fst c) /\ snd c - snd (fst c) <= hi)%Q
            | Raise _ => True
            end) l.

(** ** The tracked endpoints *)

(** [GET /matches/live] under [@track_request]: the handler runs between
    the two clock readings of the wrapper. *)
Definition tracked_get_live_matches {R : Type} `{performance.PyNumber R}
    (L : Libs) (client : VlrClient) (w : World) (start_time end_time : R)
    (st : performance.Stats R)
  : VlrClient * performance.Stats R * res pyval :=
  let (client', outcome) := vlr_router.get_live_matches L client w in
  let (st', outcome') := performance.track_request outcome start_time end_time st in
  (client', st', outcome').

(* ===================================================================== *)
(** * Properties *)
(* ===================================================================== *)

(** ** Strings *)

Lemma replace_from_absent (old new s : string) :
  contains old s = false -> replace_from old new s 0 = s.
Proof.
  induction s as [|c s' IH]; intros Hno; [reflexivity|].
  cbn [contains] in Hno. apply orb_false_iff in Hno as [Hpre Hrest].
  cbn [replace_from]. rewrite Hpre. f_equal. now apply IH.
Qed.

Lemma contains_empty (s : string) : contains "" s = true.
Proof. destruct s; reflexivity. Qed.

(** [s.replace(old, new)] is [s] when [old] does not occur in [s]. *)
Lemma replace_absent (old new s : string) :
  contains old s = false -> replace old new s = s.
Proof.
  intros Hno. destruct old as [|c old'].
  - rewrite contains_empty in Hno. discriminate.
  - unfold replace. now apply replace_from_absent.
Qed.

Lemma flag_transform_absent (s : string) :
  contains " mod-" s = false -> contains "16" s = false -> flag_transform s = s.
Proof.
  intros Hmod H16. unfold flag_transform.
  rewrite (replace_absent " mod-" "" s Hmod). now apply replace_absent.
Qed.

(** C4, as the code has it. On a class string with neither [" mod-"] nor
    ["16"] the flag transform changes nothing, hence is idempotent;
    ["mod-us mod-16"] becomes ["mod-us_"]; and ["flag mod-us mod-16"]
    becomes ["flagus_"]: the blank before [mod-] is part of what is
    removed. *)
Theorem flag_transform_spec (s : string)
  (Hmod : contains " mod-" s = false) (H16 : contains "16" s = false) :
  flag_transform s = s /\
  flag_transform (flag_transform s) = flag_transform s /\
  flag_transform "mod-us mod-16" = "mod-us_" /\
  flag_transform "flag mod-us mod-16" = "flagus_".
Proof.
  pose proof (flag_transform_absent s Hmod H16) as Hid.
  repeat split; try reflexivity; [exact Hid | now rewrite !Hid].
Qed.

Lemma flag_transform_spec_witness :
  flag_transform "flag" = "flag" /\
  flag_transform (flag_transform "flag") = flag_transform "flag" /\
  flag_transform "mod-us mod-16" = "mod-us_" /\
  flag_transform "flag mod-us mod-16" = "flagus_".
Proof. apply (flag_transform_spec "flag"); reflexivity. Defined.

(** C4 as stated fails on its fixture: the class string
    ["flag mod-us mod-16"] does not become ["flag us_"]. *)
Lemma flag_transform_counterexample :
  flag_transform "flag mod-us mod-16" = "flagus_" /\
  flag_transform "flag mod-us mod-16" <> "flag us_".
Proof. split; [reflexivity | discriminate]. Qed.

(** ** Cache *)

Lemma lookup_set_cache (self : VlrClient) (key : string) (d : pyval) (now : Z) :
  _cache (_set_cache self key d now) !! key = Some {| data := d; timestamp := now |}.
Proof. unfold _set_cache; cbn. apply lookup_insert_eq. Qed.

Lemma get_after_set (self : VlrClient) (key : string) (payload : pyval) (t_put t_get : Z) :
  _get_from_cache (_set_cache self key payload t_put) key t_get =
  if t_get - t_put <? timedelta_seconds _cache_ttl then Some payload else None.
Proof.
  unfold _get_from_cache, _is_cache_valid. rewrite lookup_set_cache. cbn.
  now destruct (t_get - t_put <? timedelta_seconds _cache_ttl).
Qed.

(** C6. A [get] less than 30 seconds after the [put] of a key returns the
    payload that was put; from 30 seconds on the entry counts as absent.
    Times are readings of [datetime.now()] in microseconds. *)
Theorem cache_ttl_read (self : VlrClient) (key : string) (payload : pyval) (t_put t_get : Z) :
  (t_get - t_put < 30 * 1000000 ->
   _get_from_cache (_set_cache self key payload t_put) key t_get = Some payload) /\
  (30 * 1000000 <= t_get - t_put ->
   _get_from_cache (_set_cache self key payload t_put) key t_get = None).
Proof.
  rewrite get_after_set. unfold timedelta_seconds, _cache_ttl.
  split; intros Ht.
  - apply Z.ltb_lt in Ht. now rewrite Ht.
  - apply Z.ltb_ge in Ht. now rewrite Ht.
Qed.

Lemma cache_ttl_read_witness :
  _get_from_cache (_set_cache new_client "live_matches" (PStr "payload") 5000000)
                  "live_matches" 34999999 = Some (PStr "payload") /\
  _get_from_cache (_set_cache new_client "live_matches" (PStr "payload") 5000000)
                  "live_matches" 35000000 = None.
Proof.
  split.
  - apply (cache_ttl_read new_client "live_matches" (PStr "payload") 5000000 34999999). lia.
  - apply (cache_ttl_read new_client "live_matches" (PStr "payload") 5000000 35000000). lia.
Defined.

(** ** Fetcher *)

Section Backoff.
Variables (nt : Net) (url : string) (max_retries : nat).

Lemma attempt_outcome_failure (r : response) (a : nat) :
  is_success r = false ->
  attempt_outcome r a =
  (None, if is_rate_limited r then [EvSleep (2 ^ Z.of_nat a)] else []).
Proof.
  destruct r as [status body| |]; cbn; intros Hs; try reflexivity.
  rewrite Hs. now destruct (status =? 429).
Qed.

(** One failed attempt: the request, the sleeps, then the next iteration. *)
Lemma request_loop_failure (a todo : nat) :
  is_success (nt url a) = false ->
  fst (request_loop nt url max_retries a (S todo)) =
  EvGet url a
    :: (if is_rate_limited (nt url a) then [EvSleep (2 ^ Z.of_nat a)] else [])
    ++ backoff_sleep max_retries a
    ++ fst (request_loop nt url max_retries (S a) todo).
Proof.
  intros Hs. cbn [request_loop]. rewrite (attempt_outcome_failure _ a Hs).
  now destruct (request_loop nt url max_retries (S a) todo).
Qed.

(** Every iteration starts with its request. *)
Lemma request_loop_head (a todo : nat) :
  exists tr, fst (request_loop nt url max_retries a (S todo)) = EvGet url a :: tr.
Proof.
  cbn [request_loop].
  destruct (attempt_outcome (nt url a) a) as [[body|] in_try].
  - now exists [].
  - destruct (request_loop nt url max_retries (S a) todo) as [tr out].
    now eexists.
Qed.

Lemma backoff_sleep_inner (a : nat) :
  (a < max_retries - 1)%nat -> backoff_sleep max_retries a = [EvSleep (2 ^ Z.of_nat a)].
Proof.
  intros Ha. unfold backoff_sleep.
  destruct (Z.ltb_spec (Z.of_nat a) (Z.of_nat max_retries - 1)); [reflexivity | lia].
Qed.

Lemma wait_between (i todo a : nat) :
  (a <= i)%nat -> (S i < a + todo)%nat -> (i < max_retries - 1)%nat ->
  (forall j, (j <= i)%nat -> is_success (nt url j) = false) ->
  let tr := fst (request_loop nt url max_retries a todo) in
  issued tr url (S i) /\
  wait_after tr i =
  if is_rate_limited (nt url i)
  then 2 ^ Z.of_nat i + 2 ^ Z.of_nat i
  else 2 ^ Z.of_nat i.
Proof.
  revert a. induction todo as [|todo' IH]; intros a Hle Hlt Hmax Hfail; [lia|].
  cbv zeta. rewrite request_loop_failure by (apply Hfail; lia).
  destruct (Nat.eq_dec a i) as [->|Hne].
  - destruct todo' as [|todo'']; [lia|].
    destruct (request_loop_head (S i) todo'') as [rest Hrest].
    rewrite Hrest, backoff_sleep_inner by lia. split.
    + right. apply in_or_app. right. right. left. reflexivity.
    + cbn [wait_after]. rewrite Nat.eqb_refl.
      destruct (is_rate_limited (nt url i)); cbn; lia.
  - assert (Hlt' : (a < i)%nat) by lia.
    destruct (IH (S a)) as [Hin Hwait]; try lia; [exact Hfail|].
    split.
    + right. apply in_or_app. right. apply in_or_app. right. exact Hin.
    + cbn [wait_after]. replace (Nat.eqb a i) with false
        by (symmetry; apply Nat.eqb_neq; lia).
      rewrite <- Hwait. unfold backoff_sleep.
      destruct (is_rate_limited (nt url a));
        destruct (Z.of_nat a <? Z.of_nat max_retries - 1); reflexivity.
Qed.

End Backoff.

(** C3, as the code has it. When the attempts up to [i] all fail and [i] is
    not the last one, attempt [i+1] is issued after the uniform backoff of
    [2^i] seconds; a 429 answer adds its own sleep of [2^i] seconds before
    that backoff, so the wait after a 429 is [2^i + 2^i] seconds. *)
Theorem backoff_between_attempts (nt : Net) (url : string) (max_retries i : nat)
  (Hmore : (i < max_retries - 1)%nat)
  (Hfail : forall j, (j <= i)%nat -> is_success (nt url j) = false) :
  let tr := fst (request_loop nt url max_retries 0 max_retries) in
  issued tr url (S i) /\
  wait_after tr i =
  if is_rate_limited (nt url i)
  then 2 ^ Z.of_nat i + 2 ^ Z.of_nat i
  else 2 ^ Z.of_nat i.
Proof. apply wait_between; try lia. exact Hfail. Qed.

Lemma backoff_between_attempts_witness :
  let tr := fst (request_loop net_rate_limited "https://www.vlr.gg" 3 0 3) in
  issued tr "https://www.vlr.gg" 2 /\
  wait_after tr 1 = 2 ^ Z.of_nat 1 + 2 ^ Z.of_nat 1.
Proof.
  apply (backoff_between_attempts net_rate_limited "https://www.vlr.gg" 3 1).
  - cbn. lia.
  - intros j _. reflexivity.
Defined.

(** C3 as stated fails for status 429: with every answer a 429 and three
    attempts, 2 seconds pass between attempt 0 and attempt 1, not [2^0]. *)
Lemma rate_limit_wait_counterexample :
  let tr := fst (request_loop net_rate_limited "https://www.vlr.gg" 3 0 3) in
  is_rate_limited (net_rate_limited "https://www.vlr.gg" 0%nat) = true /\
  tr = [EvGet "https://www.vlr.gg" 0; EvSleep 1; EvSleep 1;
        EvGet "https://www.vlr.gg" 1; EvSleep 2; EvSleep 2;
        EvGet "https://www.vlr.gg" 2; EvSleep 4] /\
  wait_after tr 0 = 2 /\
  wait_after tr 0 <> 2 ^ Z.of_nat 0.
Proof. cbv zeta. repeat split. vm_compute. discriminate. Qed.

(** ** Extractor and Aggregator *)

Lemma make_request_open (self : VlrClient) (nt : Net) (url : string) (n : nat) :
  session self = true ->
  _make_request self nt url n = Ret (snd (request_loop nt url n 0 n)).
Proof. intros Hs. unfold _make_request, _make_request_trace. now rewrite Hs. Qed.

Section Listing.
Context (L : Libs).

(** A failed fetch of the listing page. *)
Lemma listing_fetch_failed (self : VlrClient) (nt : Net) :
  _make_request self nt "https://www.vlr.gg" 3 = Ret None ->
  get_live_matches_optimized L self nt = error_envelope "Failed to fetch live matches".
Proof. intros Hf. unfold get_live_matches_optimized. now rewrite Hf. Qed.

(** A fetched listing page with no live row. *)
Lemma listing_without_live (self : VlrClient) (nt : Net) (html_text : string) :
  _make_request self nt "https://www.vlr.gg" 3 = Ret (Some html_text) ->
  html_text <> "" ->
  List.filter match_eta_live (doc_home_matches (HTMLParser L html_text)) = [] ->
  get_live_matches_optimized L self nt = success_envelope [no_game_match].
Proof.
  intros Hf Hne Hnone. unfold get_live_matches_optimized. rewrite Hf. cbn.
  destruct html_text as [|c rest]; [contradiction|]. now rewrite Hnone.
Qed.

(** On a miss the aggregator returns what the scraper returns, and
    stores it under ["live_matches"], whatever its status. *)
Lemma get_live_matches_miss (self : VlrClient) (w : World) :
  _get_from_cache self "live_matches" (clock_check w) = None ->
  get_live_matches L self w =
  (_set_cache self "live_matches" (get_live_matches_optimized L self (net w)) (clock_store w),
   get_live_matches_optimized L self (net w)).
Proof. intros Hmiss. unfold get_live_matches. now rewrite Hmiss. Qed.

(** On a hit with a non-empty payload nothing is fetched. *)
Lemma get_live_matches_hit (self : VlrClient) (w : World) (cached_data : pyval) :
  _get_from_cache self "live_matches" (clock_check w) = Some cached_data ->
  truthy cached_data = true ->
  get_live_matches L self w = (self, cached_data).
Proof. intros Hhit Ht. unfold get_live_matches. now rewrite Hhit, Ht. Qed.

(** What [vlr_router.get_live_matches] makes of a result without data. *)
Lemma router_lacks_data (client : VlrClient) (w : World) :
  vlr_router.lacks_data (snd (get_live_matches L (__aenter__ client) w)) = true ->
  snd (vlr_router.get_live_matches L client w) = Ret vlr_router.no_live_matches.
Proof.
  intros Hl. unfold vlr_router.get_live_matches.
  destruct (get_live_matches L (__aenter__ client) w) as [client' result].
  cbn in Hl. now rewrite Hl.
Qed.

End Listing.

(** C5. When the listing page has been fetched and none of its rows is
    flagged live, the scraper, and with it the aggregator on a cache miss,
    returns status ["success"] with one record: the sentinel, whose twenty
    fields are empty strings except [klurgecustom], which is
    ["no game is live"]. *)
Theorem no_live_match_sentinel (L : Libs) (self : VlrClient) (w : World) (html_text : string)
  (Hfetch : _make_request self (net w) "https://www.vlr.gg" 3 = Ret (Some html_text))
  (Hbody : html_text <> "")
  (Hnone : List.filter match_eta_live (doc_home_matches (HTMLParser L html_text)) = [])
  (Hmiss : _get_from_cache self "live_matches" (clock_check w) = None) :
  get_live_matches_optimized L self (net w) =
    PDict [("status", PStr "success"); ("data", PList [of_summary no_game_match])] /\
  snd (get_live_matches L self w) =
    PDict [("status", PStr "success"); ("data", PList [of_summary no_game_match])] /\
  map fst no_game_match =
    [ "team1"; "team2"; "flag1"; "flag2"; "score1"; "score2";
      "team1_round_ct"; "team1_round_t"; "team2_round_ct"; "team2_round_t";
      "time_until_match"; "match_event"; "match_series"; "unix_timestamp";
      "match_page"; "team1_logo"; "team2_logo"; "map_number"; "current_map";
      "klurgecustom" ] /\
  dict_get "klurgecustom" no_game_match = Some "no game is live" /\
  (forall k v, In (k, v) no_game_match -> k <> "klurgecustom" -> v = "").
Proof.
  pose proof (listing_without_live L self (net w) html_text Hfetch Hbody Hnone) as Hs.
  split; [exact Hs|]. split.
  - rewrite (get_live_matches_miss L self w Hmiss). exact Hs.
  - split; [reflexivity|]. split; [reflexivity|].
    intros k v Hin Hk. cbn in Hin.
    repeat (destruct Hin as [Heq|Hin]; [inversion Heq; subst; try reflexivity; now contradict Hk|]).
    contradiction.
Qed.

Lemma no_live_match_sentinel_witness :
  get_live_matches_optimized sample_libs (__aenter__ new_client) net_idle =
    PDict [("status", PStr "success"); ("data", PList [of_summary no_game_match])].
Proof.
  apply (no_live_match_sentinel sample_libs (__aenter__ new_client)
           {| net := net_idle; clock_check := 0; clock_store := 1000000 |} "<home idle>").
  - reflexivity.
  - discriminate.
  - reflexivity.
  - reflexivity.
Defined.

(** C1, on the code. The first call misses the cache while every request
    is answered 503: it returns the error result, and stores it. A second
    call eight seconds later, when the site answers again, returns the
    stored error result as a cache hit; on a miss the same call would have
    returned the live matches. *)
Theorem failed_fetch_is_cached :
  let self0 := __aenter__ new_client in
  let w1 := {| net := net_down; clock_check := 0; clock_store := 4000000 |} in
  let w2 := {| net := net_live; clock_check := 12000000; clock_store := 13000000 |} in
  let self1 := fst (get_live_matches sample_libs self0 w1) in
  let r1 := snd (get_live_matches sample_libs self0 w1) in
  _get_from_cache self0 "live_matches" (clock_check w1) = None /\
  r1 = PDict [("status", PStr "error"); ("message", PStr "Failed to fetch live matches")] /\
  _get_from_cache self1 "live_matches" (clock_check w2) = Some r1 /\
  snd (get_live_matches sample_libs self1 w2) = r1 /\
  dict_get "status"
    (match snd (get_live_matches sample_libs self0 w2) with PDict d => d | _ => [] end)
  = Some (PStr "success").
Proof. cbv zeta. repeat split; vm_compute; reflexivity. Qed.

(** The same for every failed fetch on a miss: the error result is the
    payload of the next read of the key within the TTL. *)
Lemma fetch_failure_is_stored (L : Libs) (self : VlrClient) (w w' : World) :
  _get_from_cache self "live_matches" (clock_check w) = None ->
  _make_request self (net w) "https://www.vlr.gg" 3 = Ret None ->
  clock_check w' - clock_store w < 30 * 1000000 ->
  snd (get_live_matches L self w) = error_envelope "Failed to fetch live matches" /\
  get_live_matches L (fst (get_live_matches L self w)) w' =
    (fst (get_live_matches L self w), error_envelope "Failed to fetch live matches").
Proof.
  intros Hmiss Hfail Httl.
  rewrite (get_live_matches_miss L self w Hmiss), (listing_fetch_failed L self (net w) Hfail).
  split; [reflexivity|]. cbn [fst].
  apply get_live_matches_hit; [|reflexivity].
  rewrite get_after_set. unfold timedelta_seconds, _cache_ttl.
  apply Z.ltb_lt in Httl. now rewrite Httl.
Qed.

(** C2, as the code has it. When the aggregator yields an error result
    (status and message, no data), the handler of [GET /matches/live]
    answers with the envelope of status ["success"], the message
    ["No live matches currently available."] and an empty data list. *)
Theorem router_masks_error (L : Libs) (client : VlrClient) (w : World) (message : string)
  (Herr : snd (get_live_matches L (__aenter__ client) w) = error_envelope message) :
  snd (vlr_router.get_live_matches L client w) =
  Ret (PDict [ ("status", PStr "success");
               ("message", PStr "No live matches currently available.");
               ("data", PList []) ]).
Proof. apply router_lacks_data. now rewrite Herr. Qed.

Lemma router_masks_error_witness :
  snd (vlr_router.get_live_matches sample_libs new_client
         {| net := net_down; clock_check := 0; clock_store := 4000000 |}) =
  Ret (PDict [ ("status", PStr "success");
               ("message", PStr "No live matches currently available.");
               ("data", PList []) ]).
Proof.
  apply (router_masks_error sample_libs new_client
           {| net := net_down; clock_check := 0; clock_store := 4000000 |}
           "Failed to fetch live matches").
  reflexivity.
Defined.

(** C2 as stated fails: with every request answered 503 the aggregator
    yields the error result, and the response of the endpoint has status
    ["success"]. *)
Lemma router_error_counterexample :
  let w := {| net := net_down; clock_check := 0; clock_store := 4000000 |} in
  snd (get_live_matches sample_libs (__aenter__ new_client) w) =
    error_envelope "Failed to fetch live matches" /\
  exists d,
    snd (vlr_router.get_live_matches sample_libs new_client w) = Ret (PDict d) /\
    dict_get "status" d = Some (PStr "success") /\
    dict_get "status" d <> Some (PStr "error").
Proof.
  cbv zeta. split; [reflexivity|].
  eexists. split; [reflexivity|]. split; [reflexivity | discriminate].
Qed.

(** ** Batches of live matches *)

Section Batch.
Context (L : Libs) (self : VlrClient) (nt : Net).

Local Abbreviation process := (_process_live_match_optimized L self nt).

Lemma process_extraction_failure (m : MatchNode) (e : exn) :
  base_match_data L m = Raise e -> process m = [].
Proof. intros Hb. unfold _process_live_match_optimized. now rewrite Hb. Qed.

Lemma process_extraction_success (m : MatchNode) (b : MatchSummary) (url_path : string) :
  base_match_data L m = Ret (b, url_path) ->
  process m = merge_details b (_get_match_details L self nt url_path).
Proof. intros Hb. unfold _process_live_match_optimized. now rewrite Hb. Qed.

(** No text for the match page: the details are the defaults. *)
Lemma details_fetch_failure (url_path : string) :
  _make_request self nt url_path 3 = Ret None \/
  (exists e, _make_request self nt url_path 3 = Raise e) ->
  _get_match_details L self nt url_path = ([], "Unknown", "Unknown").
Proof.
  intros [Hf|[e Hf]]; unfold _get_match_details; now rewrite Hf.
Qed.

(** The base record is a dict of the nineteen fields, and stays one
    under the merge of the details. *)
Lemma merged_record (m : MatchNode) (b : MatchSummary) (url_path : string)
    (details : list string * string * string) :
  base_match_data L m = Ret (b, url_path) ->
  scorable (merge_details b details) /\
  merge_details b details <> [] /\
  dict_get "match_page" (merge_details b details) = Some url_path /\
  (details = ([], "Unknown", "Unknown") -> merge_details b details = b).
Proof.
  intros Hb. unfold base_match_data in Hb. bind_inv Hb.
  inversion Hb; subst; clear Hb.
  destruct details as [[team_logos current_map] map_number].
  split; [|split; [|split]].
  - eexists. reflexivity.
  - discriminate.
  - reflexivity.
  - intros Hd. inversion Hd; subst. reflexivity.
Qed.

(** The detail fields of the base record are the defaults. *)
Lemma base_record_defaults (m : MatchNode) (b : MatchSummary) (url_path : string) :
  base_match_data L m = Ret (b, url_path) ->
  dict_get "team1_logo" b = Some "" /\ dict_get "team2_logo" b = Some "" /\
  dict_get "map_number" b = Some "Unknown" /\ dict_get "current_map" b = Some "Unknown".
Proof.
  intros Hb. unfold base_match_data in Hb. bind_inv Hb.
  inversion Hb; subst; clear Hb. repeat split; reflexivity.
Qed.

Lemma process_scorable (m : MatchNode) : process m = [] \/ scorable (process m).
Proof.
  destruct (base_match_data L m) as [[b url_path]|e] eqn:Hb.
  - right. rewrite (process_extraction_success m b url_path Hb).
    now apply (merged_record m b url_path).
  - left. now apply (process_extraction_failure m e).
Qed.

Lemma valid_results_app (l1 l2 : list MatchSummary) :
  valid_results (l1 ++ l2) = valid_results l1 ++ valid_results l2.
Proof. unfold valid_results. apply List.filter_app. Qed.

Lemma valid_results_scorable (ms : list MatchNode) :
  Forall scorable (valid_results (map process ms)).
Proof.
  induction ms as [|m ms IH]; [constructor|].
  cbn [map valid_results List.filter]. fold (valid_results (map process ms)).
  destruct (process_scorable m) as [He|Hs].
  - now rewrite He.
  - destruct (process m); [exact IH | now constructor].
Qed.

(** The annotation of scorable records never raises. *)
Lemma annotate_scorable (l : list MatchSummary) :
  Forall scorable l -> forall idx, exists annotated, annotate idx l = Ret annotated.
Proof.
  induction 1 as [|r l [line Hline] _ IH]; intros idx; [now eexists|].
  destruct (IH (S idx)) as [rest Hrest].
  cbn [annotate]. rewrite Hline, Hrest. now eexists.
Qed.

(** The batch: every live row is processed, the empty records are
    filtered out, the rest is annotated in listing order. *)
Lemma batch_result (html_text : string) (live : list MatchNode) :
  _make_request self nt "https://www.vlr.gg" 3 = Ret (Some html_text) ->
  html_text <> "" ->
  List.filter match_eta_live (doc_home_matches (HTMLParser L html_text)) = live ->
  live <> [] ->
  exists annotated,
    annotate 0 (valid_results (map process live)) = Ret annotated /\
    get_live_matches_optimized L self nt = success_envelope annotated.
Proof.
  intros Hf Hne Hlive Hnonempty.
  destruct (annotate_scorable _ (valid_results_scorable live) 0%nat) as [annotated Ha].
  exists annotated. split; [exact Ha|].
  unfold get_live_matches_optimized. rewrite Hf. cbn [bind try_except].
  destruct html_text as [|c rest]; [contradiction|]. cbv zeta. rewrite Hlive.
  destruct live as [|m live']; [contradiction|].
  now rewrite Ha.
Qed.

End Batch.

(** C8, as the code has it. In a batch of live rows [before ++ m :: after]
    the result is a success whose data are the records of the other rows,
    in listing order and annotated, whatever happens to [m]: when the
    extraction of [m] raises, [m] alone becomes the empty record and is
    dropped; when only the fetch of its match page fails, [m] is kept, with
    its listing data and the default details (empty logos, map
    ["Unknown"]). *)
Theorem batch_isolates_failures (L : Libs) (self : VlrClient) (nt : Net)
  (html_text : string) (before after : list MatchNode) (m : MatchNode)
  (Hfetch : _make_request self nt "https://www.vlr.gg" 3 = Ret (Some html_text))
  (Hbody : html_text <> "")
  (Hlive : List.filter match_eta_live (doc_home_matches (HTMLParser L html_text))
           = before ++ m :: after) :
  let process := _process_live_match_optimized L self nt in
  let others_before := valid_results (map process before) in
  let others_after := valid_results (map process after) in
  exists records,
    get_live_matches_optimized L self nt = success_envelope records /\
    (forall e, base_match_data L m = Raise e ->
       process m = [] /\
       annotate 0 (others_before ++ others_after) = Ret records) /\
    (forall b url_path,
       base_match_data L m = Ret (b, url_path) ->
       _make_request self nt url_path 3 = Ret None ->
       process m = b /\ b <> [] /\
       dict_get "team1_logo" b = Some "" /\ dict_get "team2_logo" b = Some "" /\
       dict_get "map_number" b = Some "Unknown" /\ dict_get "current_map" b = Some "Unknown" /\
       annotate 0 (others_before ++ b :: others_after) = Ret records).
Proof.
  cbv zeta.
  destruct (batch_result L self nt html_text (before ++ m :: after) Hfetch Hbody Hlive)
    as [records [Hann Hres]]; [now destruct before|].
  rewrite map_app, valid_results_app in Hann. cbn [map] in Hann.
  exists records. split; [exact Hres|]. split.
  - intros e Hb. pose proof (process_extraction_failure L self nt m e Hb) as He.
    split; [exact He|]. rewrite He in Hann. exact Hann.
  - intros b url_path Hb Hf.
    pose proof (process_extraction_success L self nt m b url_path Hb) as Hp.
    rewrite (details_fetch_failure L self nt url_path (or_introl Hf)) in Hp.
    destruct (merged_record L m b url_path ([], "Unknown", "Unknown") Hb)
      as [_ [Hne [_ Hsame]]].
    rewrite (Hsame eq_refl) in Hp, Hne.
    destruct (base_record_defaults L m b url_path Hb) as [H1 [H2 [H3 H4]]].
    repeat (split; [assumption|]).
    rewrite Hp in Hann. unfold valid_results in Hann at 2. cbn [List.filter] in Hann.
    destruct b as [|kv b']; [contradiction|]. exact Hann.
Qed.

Lemma batch_isolates_failures_witness :
  let process := _process_live_match_optimized sample_libs (__aenter__ new_client) net_live in
  let others_before := valid_results (map process [sample_match_a]) in
  let others_after := valid_results (map process [sample_match_c]) in
  exists records,
    get_live_matches_optimized sample_libs (__aenter__ new_client) net_live
      = success_envelope records /\
    (forall e, base_match_data sample_libs sample_match_b = Raise e ->
       process sample_match_b = [] /\
       annotate 0 (others_before ++ others_after) = Ret records) /\
    (forall b url_path,
       base_match_data sample_libs sample_match_b = Ret (b, url_path) ->
       _make_request (__aenter__ new_client) net_live url_path 3 = Ret None ->
       process sample_match_b = b /\ b <> [] /\
       dict_get "team1_logo" b = Some "" /\ dict_get "team2_logo" b = Some "" /\
       dict_get "map_number" b = Some "Unknown" /\ dict_get "current_map" b = Some "Unknown" /\
       annotate 0 (others_before ++ b :: others_after) = Ret records).
Proof.
  apply (batch_isolates_failures sample_libs (__aenter__ new_client) net_live
           "<home live>" [sample_match_a] [sample_match_c] sample_match_b).
  - reflexivity.
  - discriminate.
  - reflexivity.
Defined.

(** C8 as stated fails for a detail-fetch failure: the page of the third
    live row of the sample listing cannot be fetched, and its record is
    neither empty nor dropped. *)
Lemma detail_failure_counterexample :
  let self := __aenter__ new_client in
  let record_a := _process_live_match_optimized sample_libs self net_live sample_match_a in
  let record_c := _process_live_match_optimized sample_libs self net_live sample_match_c in
  _make_request self net_live "https://www.vlr.gg//3/loud-vs-nrg" 3 = Ret None /\
  dict_get "match_page" record_c = Some "https://www.vlr.gg//3/loud-vs-nrg" /\
  dict_get "team1_logo" record_c = Some "" /\
  dict_get "current_map" record_c = Some "Unknown" /\
  record_c <> [] /\
  get_live_matches_optimized sample_libs self net_live =
    success_envelope [ dict_set "klurgecustom" "Sentinels 1 : Fnatic 0" record_a;
                       dict_set "klurgecustom2" "LOUD 2 : NRG 1" record_c ].
Proof.
  cbv zeta. repeat split; try (vm_compute; reflexivity). discriminate.
Qed.

(** ** Stats Tracker *)

Section StatsFacts.
Import performance.
Context {R : Type} `{PyNumber R}.

Lemma track_request_cache_counters {A : Type} (func : res A) (start_time end_time : R)
    (st : Stats R) :
  cache_hits (fst (track_request func start_time end_time st)) = cache_hits st /\
  cache_misses (fst (track_request func start_time end_time st)) = cache_misses st.
Proof.
  unfold track_request. destruct func as [result|e]; cbn; [|easy].
  destruct (successful_requests st + 1 =? 0); easy.
Qed.

Lemma step_cache_counters (st : Stats R) (o : op) :
  cache_hits st = 0 -> cache_misses st = 0 ->
  cache_hits (step st o) = 0 /\ cache_misses (step st o) = 0.
Proof.
  intros Hh Hm. destruct o as [func start_time end_time| |]; cbn [step]; [|easy|easy].
  destruct (track_request_cache_counters func start_time end_time st) as [-> ->]. easy.
Qed.

Lemma run_cache_counters (ops : list op) (st : Stats R) :
  cache_hits st = 0 -> cache_misses st = 0 ->
  cache_hits (run ops st) = 0 /\ cache_misses (run ops st) = 0.
Proof.
  revert st. induction ops as [|o ops IH]; intros st Hh Hm; [easy|].
  cbn [run fold_left]. destruct (step_cache_counters st o Hh Hm) as [Hh' Hm'].
  now apply IH.
Qed.

Lemma track_request_returns {A : Type} (result : A) (start_time end_time : R)
    (st : Stats R) :
  0 <= successful_requests st ->
  track_request (Ret result) start_time end_time st =
  (update_average (num_sub end_time start_time) (count_success (on_enter st)), Ret result).
Proof.
  intros Hs. unfold track_request. cbn [count_success on_enter successful_requests].
  destruct (Z.eqb_spec (successful_requests st + 1) 0); [lia | reflexivity].
Qed.

Lemma step_sound (st : Stats R) (o : op) : sound st -> sound (step st o).
Proof.
  intros (Hs & Hf & Hb). destruct o as [[result|e] start_time end_time| |]; cbn [step].
  - rewrite track_request_returns by exact Hs. unfold sound, balanced in *. cbn. lia.
  - unfold sound, balanced in *. cbn. lia.
  - easy.
  - unfold sound, balanced. cbn. lia.
Qed.

Lemma run_sound (ops : list op) (st : Stats R) : sound st -> sound (run ops st).
Proof.
  revert st. induction ops as [|o ops IH]; intros st Hs; [exact Hs|].
  cbn [run fold_left]. apply IH. now apply step_sound.
Qed.

Lemma initial_sound : sound (performance_stats (R := R)).
Proof. unfold sound, balanced. cbn. lia. Qed.

End StatsFacts.

(** C9. The counters [cache_hits] and [cache_misses] start at 0; a tracked
    call leaves them as they are, whether it returns or raises; so after
    any history of tracked calls, reads and resets the snapshot that
    [get_performance_stats] returns has both at 0. *)
Theorem cache_counters_stay_zero (R : Type) (N : performance.PyNumber R)
    (ops : list (performance.op (R := R))) :
  performance.cache_hits (performance.performance_stats (R := R)) = 0 /\
  performance.cache_misses (performance.performance_stats (R := R)) = 0 /\
  (forall (A : Type) (func : res A) (start_time end_time : R) (st : performance.Stats R),
     performance.cache_hits (fst (performance.track_request func start_time end_time st))
       = performance.cache_hits st /\
     performance.cache_misses (fst (performance.track_request func start_time end_time st))
       = performance.cache_misses st) /\
  (forall st : performance.Stats R,
     performance.cache_hits (performance.reset_performance_stats st) = 0 /\
     performance.cache_misses (performance.reset_performance_stats st) = 0) /\
  performance.cache_hits
    (performance.get_performance_stats (performance.run ops performance.performance_stats)) = 0 /\
  performance.cache_misses
    (performance.get_performance_stats (performance.run ops performance.performance_stats)) = 0.
Proof.
  split; [reflexivity|]. split; [reflexivity|]. split.
  - intros A func start_time end_time st. apply track_request_cache_counters.
  - split; [now intros st|]. now apply run_cache_counters.
Qed.

(** C10. With the tracked calls run one after the other,
    [total_requests = successful_requests + failed_requests] holds after a
    reset and in every state reached from the initial one; a tracked call
    that returns hands its result on and adds one to
    [successful_requests], one that raises re-raises the same exception
    and adds one to [failed_requests], and both keep the equation. *)
Theorem request_counters_balanced (R : Type) (N : performance.PyNumber R)
    (ops : list (performance.op (R := R)))
    (result : pyval) (e : exn) (start_time end_time : R) :
  let st := performance.run ops performance.performance_stats in
  let ok := performance.track_request (Ret result) start_time end_time st in
  let ko := performance.track_request (@Raise pyval e) start_time end_time st in
  (forall st0 : performance.Stats R,
     performance.balanced (performance.reset_performance_stats st0)) /\
  performance.balanced st /\
  (snd ok = Ret result /\
   performance.successful_requests (fst ok) = performance.successful_requests st + 1 /\
   performance.failed_requests (fst ok) = performance.failed_requests st /\
   performance.balanced (fst ok)) /\
  (snd ko = Raise e /\
   performance.failed_requests (fst ko) = performance.failed_requests st + 1 /\
   performance.successful_requests (fst ko) = performance.successful_requests st /\
   performance.balanced (fst ko)).
Proof.
  cbv zeta.
  destruct (run_sound ops _ initial_sound) as (Hs & Hf & Hb).
  split; [intros st0; reflexivity|]. split; [exact Hb|]. split.
  - rewrite track_request_returns by exact Hs.
    unfold performance.balanced in *. cbn. repeat split; lia.
  - unfold performance.balanced in *. cbn. repeat split; lia.
Qed.

(** ** The running mean *)

Section RunningMean.
Import performance.
Local Open Scope Q_scope.

(** One returned call, in exact arithmetic: the new average times the new
    count is the old average times the old count plus the elapsed time. *)
Lemma update_average_exact (st : Stats Q) (start_time end_time : Q) :
  (0 <= successful_requests st)%Z ->
  let st' := fst (track_request (Ret tt) start_time end_time st) in
  successful_requests st' = (successful_requests st + 1)%Z /\
  average_response_time st' * inject_Z (successful_requests st') ==
  average_response_time st * inject_Z (successful_requests st) + (end_time - start_time).
Proof.
  intros Hs. cbv zeta. rewrite track_request_returns by exact Hs.
  cbn. split; [reflexivity|].
  replace (successful_requests st + 1 - 1)%Z with (successful_requests st) by lia.
  rewrite Qmult_comm. apply Qmult_div_r.
  unfold Qeq, inject_Z. cbn. lia.
Qed.

Lemma run_calls_mean (l : list (res unit * Q * Q)) (st : Stats Q) :
  (0 <= successful_requests st)%Z ->
  successful_requests (run (calls l) st) = (successful_requests st + returned (calls l))%Z /\
  average_response_time (run (calls l) st) * inject_Z (successful_requests (run (calls l) st)) ==
  average_response_time st * inject_Z (successful_requests st) + elapsed_sum (calls l).
Proof.
  revert st. induction l as [|[[func start_time] end_time] l IH]; intros st Hs.
  - cbn. split; [lia | ring].
  - cbn [calls map fst snd run fold_left step]. fold (calls l).
    fold (run (calls l) (fst (track_request func start_time end_time st))).
    destruct func as [[]|e].
    + destruct (update_average_exact st start_time end_time Hs) as [Hn Havg].
      cbv zeta in Hn, Havg.
      destruct (IH (fst (track_request (Ret tt) start_time end_time st))) as [IHn IHavg];
        [lia|].
      cbn [returned elapsed_sum]. split; [lia|].
      rewrite IHavg, Havg. cbn. ring.
    + cbn [track_request fst]. destruct (IH (on_exception (on_enter st))) as [IHn IHavg];
        [exact Hs|].
      cbn [returned elapsed_sum]. split; [exact IHn | exact IHavg].
Qed.

End RunningMean.

(** C7. From reset stats, three tracked calls that return after 1, 2 and 3
    seconds leave [average_response_time] at 2.0 and [successful_requests]
    at 3, and a following call that raises sets [failed_requests] to 1 and
    leaves the average as it is. This holds in binary64 at the given clock
    readings and in exact arithmetic at every start time. The average is
    the running mean of the calls that returned: after any history of
    tracked calls from reset, average times number of returned calls is
    the sum of their elapsed times. *)
Theorem running_average_fixture
    (f0 : performance.Stats float) (q0 : performance.Stats Q)
    (t1 t2 t3 t4 t4' : Q) (e : exn) (history : list (res unit * Q * Q)) :
  let f3 :=
    performance.run
      [ performance.OpTrack (Ret tt) 10%float 11%float;
        performance.OpTrack (Ret tt) 20%float 22%float;
        performance.OpTrack (Ret tt) 30%float 33%float ]
      (performance.reset_performance_stats f0) in
  let f4 := fst (performance.track_request (@Raise pyval e) 40%float 41%float f3) in
  let q3 :=
    performance.run
      [ performance.OpTrack (Ret tt) t1 (t1 + 1)%Q;
        performance.OpTrack (Ret tt) t2 (t2 + 2)%Q;
        performance.OpTrack (Ret tt) t3 (t3 + 3)%Q ]
      (performance.reset_performance_stats q0) in
  let q4 := fst (performance.track_request (@Raise pyval e) t4 t4' q3) in
  let h := performance.run (performance.calls history)
             (performance.reset_performance_stats q0) in
  (performance.successful_requests f3 = 3 /\
   performance.average_response_time f3 = 2%float /\
   performance.failed_requests f3 = 0 /\
   performance.failed_requests f4 = 1 /\
   performance.successful_requests f4 = 3 /\
   performance.average_response_time f4 = performance.average_response_time f3) /\
  (performance.successful_requests q3 = 3 /\
   (performance.average_response_time q3 == 2)%Q /\
   performance.failed_requests q3 = 0 /\
   performance.failed_requests q4 = 1 /\
   performance.successful_requests q4 = 3 /\
   performance.average_response_time q4 = performance.average_response_time q3) /\
  (performance.successful_requests h = performance.returned (performance.calls history) /\
   (performance.average_response_time h
      * inject_Z (performance.returned (performance.calls history))
    == performance.elapsed_sum (performance.calls history))%Q).
Proof.
  cbv zeta. split; [|split].
  - repeat split; vm_compute; reflexivity.
  - repeat split; try reflexivity.
    destruct (run_calls_mean
                [(Ret tt, t1, (t1 + 1)%Q); (Ret tt, t2, (t2 + 2)%Q); (Ret tt, t3, (t3 + 3)%Q)]
                (performance.reset_performance_stats q0)) as [Hn Havg]; [cbn; lia|].
    cbn [performance.calls map fst snd] in Hn, Havg.
    rewrite Hn in Havg. cbn in Havg.
    apply (Qmult_inj_r _ _ (inject_Z 3)); [discriminate|].
    rewrite Havg. ring.
  - destruct (run_calls_mean history (performance.reset_performance_stats q0)) as [Hn Havg];
      [cbn; lia|].
    cbn in Hn. split; [exact Hn|].
    rewrite <- Hn at 1. rewrite Havg. cbn. ring.
Qed.

(* ===================================================================== *)
(** * Further properties of the code *)
(* ===================================================================== *)

(** ** What a fetch returns and what it costs *)

Section FetchLoop.
Variables (nt : Net) (url : string) (max_retries : nat).

Lemma request_loop_success (a todo : nat) (body : string) :
  nt url a = HttpResponse 200 body ->
  request_loop nt url max_retries a (S todo) = ([EvGet url a], Some body).
Proof. intros Hr. cbn [request_loop]. now rewrite Hr. Qed.

Lemma is_success_200 (r : response) :
  is_success r = true -> exists body, r = HttpResponse 200 body.
Proof.
  destruct r as [status body| |]; cbn; try discriminate.
  intros Hs. apply Z.eqb_eq in Hs. subst. now exists body.
Qed.

Lemma request_loop_failure_out (a todo : nat) :
  is_success (nt url a) = false ->
  snd (request_loop nt url max_retries a (S todo)) =
  snd (request_loop nt url max_retries (S a) todo).
Proof.
  intros Hs. cbn [request_loop]. rewrite (attempt_outcome_failure _ a Hs).
  now destruct (request_loop nt url max_retries (S a) todo).
Qed.

Lemma attempts_of_sleeps (a : nat) (r : response) (tr : list event) :
  attempts_of ((if is_rate_limited r then [EvSleep (2 ^ Z.of_nat a)] else [])
               ++ backoff_sleep max_retries a ++ tr) = attempts_of tr.
Proof.
  unfold backoff_sleep.
  destruct (is_rate_limited r); destruct (Z.of_nat a <? Z.of_nat max_retries - 1); reflexivity.
Qed.

(** The loop from attempt [a] on: either it returns the text of the first
    attempt answered 200, having issued the attempts up to it, or every
    attempt failed and all were issued. *)
Lemma request_loop_spec (todo a : nat) :
  match snd (request_loop nt url max_retries a todo) with
  | Some body =>
      exists k, (a <= k < a + todo)%nat /\ nt url k = HttpResponse 200 body /\
                (forall j, (a <= j < k)%nat -> is_success (nt url j) = false) /\
                attempts_of (fst (request_loop nt url max_retries a todo)) = seq a (S k - a)
  | None =>
      (forall j, (a <= j < a + todo)%nat -> is_success (nt url j) = false) /\
      attempts_of (fst (request_loop nt url max_retries a todo)) = seq a todo
  end.
Proof.
  revert a. induction todo as [|todo IH]; intros a.
  - cbn. split; [intros j Hj; lia | reflexivity].
  - destruct (is_success (nt url a)) eqn:Hs.
    + destruct (is_success_200 _ Hs) as [body Hr].
      rewrite (request_loop_success a todo body Hr). cbn [snd fst].
      exists a. split; [lia|]. split; [exact Hr|]. split; [intros j Hj; lia|].
      replace (S a - a)%nat with 1%nat by lia. reflexivity.
    + rewrite request_loop_failure_out, request_loop_failure by exact Hs.
      cbn [attempts_of]. rewrite attempts_of_sleeps.
      specialize (IH (S a)).
      destruct (snd (request_loop nt url max_retries (S a) todo)) as [body|].
      * destruct IH as (k & Hk & Hr & Hfail & Hatt).
        exists k. split; [lia|]. split; [exact Hr|]. split.
        -- intros j Hj. destruct (Nat.eq_dec j a) as [->|Hne]; [exact Hs | apply Hfail; lia].
        -- rewrite Hatt. replace (S k - a)%nat with (S (S k - S a)) by lia. reflexivity.
      * destruct IH as (Hfail & Hatt). split.
        -- intros j Hj. destruct (Nat.eq_dec j a) as [->|Hne]; [exact Hs | apply Hfail; lia].
        -- rewrite Hatt. reflexivity.
Qed.

Lemma total_sleep_app (l1 l2 : list event) :
  total_sleep (l1 ++ l2) = total_sleep l1 + total_sleep l2.
Proof.
  induction l1 as [|[u i|n] l1 IH]; cbn [app total_sleep]; lia.
Qed.

Lemma pow2_pos (a : nat) : 0 < 2 ^ Z.of_nat a.
Proof. apply Z.pow_pos_nonneg; lia. Qed.

Lemma pow2_succ (a : nat) : 2 ^ Z.of_nat (S a) = 2 * 2 ^ Z.of_nat a.
Proof. rewrite Nat2Z.inj_succ. apply Z.pow_succ_r. lia. Qed.

Lemma pow2_mono (a b : nat) : (a <= b)%nat -> 2 ^ Z.of_nat a <= 2 ^ Z.of_nat b.
Proof. intros Hab. apply Z.pow_le_mono_r; lia. Qed.

(** The sleeps of the loop from attempt [a] on, against the worst case of
    a 429 at every attempt. *)
Lemma request_loop_sleep_bound (todo a : nat) :
  (a + S todo = max_retries)%nat ->
  0 <= total_sleep (fst (request_loop nt url max_retries a (S todo))) /\
  total_sleep (fst (request_loop nt url max_retries a (S todo))) + 2 * 2 ^ Z.of_nat a
  <= 3 * 2 ^ Z.of_nat (max_retries - 1).
Proof.
  revert a. induction todo as [|todo IH]; intros a Hmax.
  - replace (max_retries - 1)%nat with a by lia.
    pose proof (pow2_pos a) as Hp.
    destruct (is_success (nt url a)) eqn:Hs.
    + destruct (is_success_200 _ Hs) as [body Hr].
      rewrite (request_loop_success a 0 body Hr). cbn. lia.
    + rewrite request_loop_failure by exact Hs. cbn [request_loop fst total_sleep].
      rewrite !total_sleep_app. unfold backoff_sleep.
      destruct (Z.ltb_spec (Z.of_nat a) (Z.of_nat max_retries - 1)); [lia|].
      destruct (is_rate_limited (nt url a)); cbn; lia.
  - pose proof (pow2_pos a) as Hp.
    pose proof (pow2_mono a (max_retries - 1)) as Hm.
    destruct (is_success (nt url a)) eqn:Hs.
    + destruct (is_success_200 _ Hs) as [body Hr].
      rewrite (request_loop_success a (S todo) body Hr). cbn. lia.
    + rewrite request_loop_failure by exact Hs. cbn [total_sleep].
      rewrite !total_sleep_app. unfold backoff_sleep.
      destruct (IH (S a)) as [IH0 IH1]; [lia|]. rewrite pow2_succ in IH1.
      destruct (is_rate_limited (nt url a));
        destruct (Z.of_nat a <? Z.of_nat max_retries - 1); cbn [total_sleep]; lia.
Qed.

(** The sleeps of the loop when every attempt fails with something else
    than a 429: the backoffs alone. *)
Lemma request_loop_plain_sleep (todo a : nat) :
  (a + S todo = max_retries)%nat ->
  (forall j, (a <= j < max_retries)%nat ->
     is_success (nt url j) = false /\ is_rate_limited (nt url j) = false) ->
  total_sleep (fst (request_loop nt url max_retries a (S todo))) + 2 ^ Z.of_nat a
  = 2 ^ Z.of_nat (max_retries - 1).
Proof.
  revert a. induction todo as [|todo IH]; intros a Hmax Hall.
  - replace (max_retries - 1)%nat with a by lia.
    destruct (Hall a) as [Hs Hr]; [lia|].
    rewrite request_loop_failure by exact Hs. rewrite Hr.
    cbn [request_loop fst app total_sleep]. rewrite total_sleep_app. unfold backoff_sleep.
    destruct (Z.ltb_spec (Z.of_nat a) (Z.of_nat max_retries - 1)); [lia|]. cbn. lia.
  - destruct (Hall a) as [Hs Hr]; [lia|].
    rewrite request_loop_failure by exact Hs. rewrite Hr. cbn [app total_sleep].
    rewrite total_sleep_app. unfold backoff_sleep.
    destruct (Z.ltb_spec (Z.of_nat a) (Z.of_nat max_retries - 1)); [|lia].
    specialize (IH (S a)). rewrite pow2_succ in IH. cbn [total_sleep].
    rewrite <- IH; [lia | lia | intros j Hj; apply Hall; lia].
Qed.

End FetchLoop.

(** X1. With an open session, a fetch returns a text exactly when some
    attempt below [max_retries] is answered 200 after failures only, and
    the text is that of this first success; the attempts issued are then
    0 to [k], none after the success. *)
Theorem fetch_returns_first_success (self : VlrClient) (nt : Net) (url : string)
    (max_retries : nat) (body : string) (Hopen : session self = true) :
  _make_request self nt url max_retries = Ret (Some body) <->
  exists k, (k < max_retries)%nat /\ nt url k = HttpResponse 200 body /\
            (forall j, (j < k)%nat -> is_success (nt url j) = false) /\
            attempts_of (fst (request_loop nt url max_retries 0 max_retries)) = seq 0 (S k).
Proof.
  rewrite (make_request_open self nt url max_retries Hopen).
  pose proof (request_loop_spec nt url max_retries max_retries 0) as Hspec.
  split.
  - intros Hret. injection Hret as Hret. rewrite Hret in Hspec.
    destruct Hspec as (k & Hk & Hr & Hfail & Hatt).
    exists k. split; [lia|]. split; [exact Hr|]. split.
    + intros j Hj. apply Hfail. lia.
    + rewrite Hatt. now rewrite Nat.sub_0_r.
  - intros (k & Hk & Hr & Hfail & _). f_equal.
    destruct (snd (request_loop nt url max_retries 0 max_retries)) as [body'|].
    + destruct Hspec as (k' & Hk' & Hr' & Hfail' & _).
      assert (k' = k) as ->.
      { destruct (Nat.lt_trichotomy k' k) as [Hlt|[Heq|Hgt]]; [|exact Heq|].
        - specialize (Hfail k' Hlt). rewrite Hr' in Hfail. discriminate.
        - specialize (Hfail' k ltac:(lia)). rewrite Hr in Hfail'. discriminate. }
      rewrite Hr in Hr'. now injection Hr' as ->.
    + destruct Hspec as (Hall & _). specialize (Hall k ltac:(lia)).
      rewrite Hr in Hall. discriminate.
Qed.

Lemma fetch_returns_first_success_witness :
  _make_request (__aenter__ new_client)
    (fun _ n => if Nat.eqb n 1 then HttpResponse 200 "ok" else TimeoutError)
    "https://www.vlr.gg" 3 = Ret (Some "ok").
Proof.
  apply (fetch_returns_first_success (__aenter__ new_client)
           (fun _ n => if Nat.eqb n 1 then HttpResponse 200 "ok" else TimeoutError)
           "https://www.vlr.gg" 3 "ok" eq_refl).
  exists 1%nat. split; [lia|]. split; [reflexivity|]. split; [|reflexivity].
  intros j Hj. assert (j = 0%nat) as -> by lia. reflexivity.
Defined.

(** X2. With an open session, a fetch returns [None] exactly when all
    [max_retries] attempts fail; it has then issued every attempt once, in
    order, and raised nothing. *)
Theorem fetch_exhausted (self : VlrClient) (nt : Net) (url : string)
    (max_retries : nat) (Hopen : session self = true) :
  (_make_request self nt url max_retries = Ret None <->
   forall j, (j < max_retries)%nat -> is_success (nt url j) = false) /\
  (_make_request self nt url max_retries = Ret None ->
   attempts_of (fst (request_loop nt url max_retries 0 max_retries)) = seq 0 max_retries).
Proof.
  rewrite (make_request_open self nt url max_retries Hopen).
  pose proof (request_loop_spec nt url max_retries max_retries 0) as Hspec.
  destruct (snd (request_loop nt url max_retries 0 max_retries)) as [body|].
  - destruct Hspec as (k & Hk & Hr & _). split; [split|]; try discriminate.
    intros Hall. specialize (Hall k ltac:(lia)). rewrite Hr in Hall. discriminate.
  - destruct Hspec as (Hall & Hatt). split; [split|]; try easy.
    intros _ j Hj. apply Hall. lia.
Qed.

Lemma fetch_exhausted_witness :
  _make_request (__aenter__ new_client) net_down "https://www.vlr.gg" 3 = Ret None /\
  attempts_of (fst (request_loop net_down "https://www.vlr.gg" 3 0 3)) = seq 0 3.
Proof.
  destruct (fetch_exhausted (__aenter__ new_client) net_down "https://www.vlr.gg" 3 eq_refl)
    as [[_ Hnone] Hatt].
  assert (H : _make_request (__aenter__ new_client) net_down "https://www.vlr.gg" 3 = Ret None)
    by (apply Hnone; intros j _; reflexivity).
  split; [exact H | exact (Hatt H)].
Defined.

(** X3. Whatever the answers, the sleeps of one fetch add up to at most
    [3 * 2^(max_retries - 1) - 2] seconds (10 seconds for the default of 3
    attempts), and no fetch issues more than [max_retries] requests. *)
Theorem fetch_cost_bound (nt : Net) (url : string) (max_retries : nat) :
  let tr := fst (request_loop nt url max_retries 0 max_retries) in
  0 <= total_sleep tr <= 3 * 2 ^ Z.of_nat (max_retries - 1) - 2 /\
  (length (attempts_of tr) <= max_retries)%nat /\
  (max_retries = 3%nat -> total_sleep tr <= 10).
Proof.
  cbv zeta.
  assert (Hb : 0 <= total_sleep (fst (request_loop nt url max_retries 0 max_retries))
               <= 3 * 2 ^ Z.of_nat (max_retries - 1) - 2).
  { destruct max_retries as [|m] eqn:Hm; [cbn; lia|].
    destruct (request_loop_sleep_bound nt url (S m) m 0) as [H0 H1]; [lia|].
    cbn [Z.of_nat] in H1. rewrite Z.pow_0_r in H1. lia. }
  split; [exact Hb|]. split.
  - pose proof (request_loop_spec nt url max_retries max_retries 0) as Hspec.
    destruct (snd (request_loop nt url max_retries 0 max_retries)) as [body|].
    + destruct Hspec as (k & Hk & _ & _ & Hatt). rewrite Hatt, length_seq. lia.
    + destruct Hspec as (_ & Hatt). rewrite Hatt, length_seq. lia.
  - intros H3. rewrite H3 in Hb |- *. change (2 ^ Z.of_nat (3 - 1)) with 4 in Hb. lia.
Qed.

Lemma fetch_cost_bound_witness :
  total_sleep (fst (request_loop net_rate_limited "https://www.vlr.gg" 3 0 3)) <= 10.
Proof. apply (fetch_cost_bound net_rate_limited "https://www.vlr.gg" 3). reflexivity. Defined.

(** X4. When every attempt fails with something else than a 429 (another
    status, a timeout, a client error), the fetch sleeps
    [2^(max_retries - 1) - 1] seconds in all: 1 + 2 for three attempts,
    and nothing after the last one. *)
Theorem fetch_plain_failures_sleep (nt : Net) (url : string) (max_retries : nat)
    (Hall : forall j, (j < max_retries)%nat ->
              is_success (nt url j) = false /\ is_rate_limited (nt url j) = false) :
  total_sleep (fst (request_loop nt url max_retries 0 max_retries))
  = 2 ^ Z.of_nat (max_retries - 1) - 1.
Proof.
  destruct max_retries as [|m] eqn:Hm; [reflexivity|].
  pose proof (request_loop_plain_sleep nt url (S m) m 0) as Hp.
  cbn [Z.of_nat] in Hp. rewrite Z.pow_0_r in Hp.
  rewrite <- Hp; [lia | lia | intros j Hj; apply Hall; lia].
Qed.

Lemma fetch_plain_failures_sleep_witness :
  total_sleep (fst (request_loop net_down "https://www.vlr.gg" 3 0 3)) = 2 ^ Z.of_nat (3 - 1) - 1.
Proof.
  apply (fetch_plain_failures_sleep net_down "https://www.vlr.gg" 3).
  intros j _. split; reflexivity.
Defined.

(** ** The cache and the aggregator *)

(** X5. A [put] on one key leaves every other key as it was, and a client
    that has stored nothing misses on every key. *)
Theorem cache_keys_independent (self : VlrClient) (key other : string) (payload : pyval)
    (t_put now : Z) (Hother : key <> other) :
  _get_from_cache (_set_cache self key payload t_put) other now = _get_from_cache self other now /\
  _get_from_cache new_client other now = None.
Proof.
  split; [|reflexivity].
  unfold _get_from_cache, _is_cache_valid, _set_cache. cbn.
  now rewrite lookup_insert_ne.
Qed.

Lemma cache_keys_independent_witness :
  _get_from_cache (_set_cache new_client "live_matches" (PStr "x") 0) "match_1" 5 =
  _get_from_cache new_client "match_1" 5.
Proof.
  apply (cache_keys_independent new_client "live_matches" "match_1" (PStr "x") 0 5).
  discriminate.
Defined.

Lemma set_cache_twice (self : VlrClient) (key : string) (p1 p2 : pyval) (t1 t2 : Z) :
  _set_cache (_set_cache self key p1 t1) key p2 t2 = _set_cache self key p2 t2.
Proof. unfold _set_cache. cbn. now rewrite insert_insert_eq. Qed.

(** X6. A second [put] on a key replaces the entry: the cache is the one
    the second [put] alone gives, the payload read is the second one, and
    the 30 seconds count from the second write. *)
Theorem cache_last_write_wins (self : VlrClient) (key : string) (p1 p2 : pyval)
    (t1 t2 now : Z) :
  _set_cache (_set_cache self key p1 t1) key p2 t2 = _set_cache self key p2 t2 /\
  _get_from_cache (_set_cache (_set_cache self key p1 t1) key p2 t2) key now =
  if now - t2 <? 30 * 1000000 then Some p2 else None.
Proof.
  split; [apply set_cache_twice | apply get_after_set].
Qed.

Section Aggregator.
Context (L : Libs).

(** The scraper returns an error result or a success result, never
    anything else, and never raises. *)
Lemma scraper_result_envelope (self : VlrClient) (nt : Net) :
  (exists message, get_live_matches_optimized L self nt = error_envelope message) \/
  (exists records, get_live_matches_optimized L self nt = success_envelope records).
Proof.
  unfold get_live_matches_optimized.
  destruct (_make_request self nt "https://www.vlr.gg" 3) as [[[|c html_text]|]|e];
    cbn [bind try_except]; try (left; now eexists).
  destruct (List.filter match_eta_live (doc_home_matches (HTMLParser L (String c html_text))))
    as [|m live]; [right; now eexists|].
  destruct (annotate 0 _) as [annotated|e]; cbn [bind try_except];
    [right | left]; now eexists.
Qed.

Lemma scraper_result_truthy (self : VlrClient) (nt : Net) :
  truthy (get_live_matches_optimized L self nt) = true.
Proof.
  destruct (scraper_result_envelope self nt) as [[message ->]|[records ->]]; reflexivity.
Qed.

End Aggregator.

(** X7. After a call that missed the cache and stored its result at
    [clock_store w], every call that checks the cache less than 30 seconds
    later, in a new session and whatever the network then does, returns
    that same result and leaves the client as it is: nothing is fetched
    and nothing is stored again. *)
Theorem repeated_call_served_from_cache (L : Libs) (self : VlrClient) (w w' : World)
    (Hmiss : _get_from_cache self "live_matches" (clock_check w) = None)
    (Hsoon : clock_check w' - clock_store w < 30 * 1000000) :
  let self1 := fst (get_live_matches L self w) in
  let r1 := snd (get_live_matches L self w) in
  r1 = get_live_matches_optimized L self (net w) /\
  get_live_matches L (__aenter__ self1) w' = (__aenter__ self1, r1).
Proof.
  cbv zeta. rewrite (get_live_matches_miss L self w Hmiss). cbn [fst snd].
  split; [reflexivity|].
  apply get_live_matches_hit; [|apply scraper_result_truthy].
  unfold _get_from_cache, _is_cache_valid, __aenter__. cbn [_cache].
  rewrite lookup_set_cache. cbn.
  apply Z.ltb_lt in Hsoon. unfold timedelta_seconds, _cache_ttl. now rewrite Hsoon.
Qed.

Lemma repeated_call_served_from_cache_witness :
  let w := {| net := net_live; clock_check := 0; clock_store := 1000000 |} in
  let w' := {| net := net_down; clock_check := 30999999; clock_store := 31000000 |} in
  let self1 := fst (get_live_matches sample_libs (__aenter__ new_client) w) in
  let r1 := snd (get_live_matches sample_libs (__aenter__ new_client) w) in
  r1 = get_live_matches_optimized sample_libs (__aenter__ new_client) (net w) /\
  get_live_matches sample_libs (__aenter__ self1) w' = (__aenter__ self1, r1).
Proof.
  apply (repeated_call_served_from_cache sample_libs (__aenter__ new_client)
           {| net := net_live; clock_check := 0; clock_store := 1000000 |}
           {| net := net_down; clock_check := 30999999; clock_store := 31000000 |}).
  - reflexivity.
  - cbn. lia.
Defined.

(** X8. Once 30 seconds or more have passed since the store, the next
    call misses: it scrapes again over the network of its own time,
    returns that result, and stores it under the same key with the new
    timestamp, in place of the old entry. *)
Theorem expired_entry_is_refetched (L : Libs) (self : VlrClient) (w w' : World)
    (Hmiss : _get_from_cache self "live_matches" (clock_check w) = None)
    (Hlate : 30 * 1000000 <= clock_check w' - clock_store w) :
  let self1 := fst (get_live_matches L self w) in
  let r2 := get_live_matches_optimized L self1 (net w') in
  get_live_matches L self1 w' = (_set_cache self "live_matches" r2 (clock_store w'), r2).
Proof.
  cbv zeta. rewrite (get_live_matches_miss L self w Hmiss). cbn [fst].
  rewrite get_live_matches_miss.
  { f_equal. apply set_cache_twice. }
  rewrite get_after_set. apply Z.ltb_ge in Hlate.
  unfold timedelta_seconds, _cache_ttl. now rewrite Hlate.
Qed.

Lemma expired_entry_is_refetched_witness :
  let w := {| net := net_down; clock_check := 0; clock_store := 4000000 |} in
  let w' := {| net := net_idle; clock_check := 34000000; clock_store := 35000000 |} in
  let self1 := fst (get_live_matches sample_libs (__aenter__ new_client) w) in
  let r2 := get_live_matches_optimized sample_libs self1 (net w') in
  get_live_matches sample_libs self1 w' =
  (_set_cache (__aenter__ new_client) "live_matches" r2 (clock_store w'), r2).
Proof.
  apply (expired_entry_is_refetched sample_libs (__aenter__ new_client)
           {| net := net_down; clock_check := 0; clock_store := 4000000 |}
           {| net := net_idle; clock_check := 34000000; clock_store := 35000000 |}).
  - reflexivity.
  - cbn. lia.
Defined.

(** ** Extraction of a live row *)

Lemma team_step_readable (acc : TeamAcc) (t : TeamNode) :
  team_readable t = true ->
  team_step acc t =
  Ret {| teams := teams acc ++ [name_of t];
         flags := flags acc ++ [flag_of t];
         scores := scores acc ++ [score_of t];
         round_texts := round_texts acc
                        ++ [(round_text (team_rounds_ct t), round_text (team_rounds_t t))] |}.
Proof.
  unfold team_readable, team_step, name_of, flag_of, score_of, team_class, subscript.
  destruct (team_name_node t) as [n|]; [|discriminate].
  destruct (team_flag_node t) as [attrs|]; [|discriminate]. cbn [node_text node_attributes bind].
  destruct (dict_get "class" attrs) as [[c|]|]; try discriminate.
  destruct (team_score_node t) as [x|]; [|discriminate]. reflexivity.
Qed.

Lemma team_step_unreadable (acc : TeamAcc) (t : TeamNode) :
  team_readable t = false -> exists e, team_step acc t = Raise e.
Proof.
  unfold team_readable, team_step, team_class, subscript.
  destruct (team_name_node t) as [n|]; [|now eexists].
  destruct (team_flag_node t) as [attrs|]; [|now eexists]. cbn [node_text node_attributes bind].
  destruct (dict_get "class" attrs) as [[c|]|]; try (now eexists).
  destruct (team_score_node t) as [x|]; [discriminate | now eexists].
Qed.

Lemma foldM_team_step (ts : list TeamNode) (acc : TeamAcc) :
  if forallb team_readable ts
  then foldM team_step acc ts =
       Ret {| teams := teams acc ++ map name_of ts;
              flags := flags acc ++ map flag_of ts;
              scores := scores acc ++ map score_of ts;
              round_texts := round_texts acc
                ++ map (fun t => (round_text (team_rounds_ct t), round_text (team_rounds_t t))) ts |}
  else exists e, foldM team_step acc ts = Raise e.
Proof.
  revert acc. induction ts as [|t ts IH]; intros acc.
  - cbn. rewrite !app_nil_r. now destruct acc.
  - cbn [forallb foldM]. destruct (team_readable t) eqn:Ht; cbn [andb].
    + rewrite (team_step_readable acc t Ht). cbn [bind].
      specialize (IH {| teams := teams acc ++ [name_of t];
                        flags := flags acc ++ [flag_of t];
                        scores := scores acc ++ [score_of t];
                        round_texts := round_texts acc
                          ++ [(round_text (team_rounds_ct t), round_text (team_rounds_t t))] |}).
      destruct (forallb team_readable ts); [|exact IH].
      rewrite IH. cbn [teams flags scores round_texts map]. now rewrite <- !app_assoc.
    + destruct (team_step_unreadable acc t Ht) as [e He]. rewrite He. now eexists.
Qed.

Section Extraction.
Context (L : Libs).

(** The extraction returns the record of the row when the row is
    extractable, and raises otherwise. *)
Lemma base_match_data_spec (m : MatchNode) :
  if extractable L m
  then exists h, href_of m = Some h /\
                 base_match_data L m = Ret (extracted_record L m, "https://www.vlr.gg/" +:+ h)
  else exists e, base_match_data L m = Raise e.
Proof.
  unfold extractable, base_match_data, extracted_record, timestamp_of, href_of, subscript.
  pose proof (foldM_team_step (match_teams m)
                {| teams := []; flags := []; scores := []; round_texts := [] |}) as Hfold.
  destruct (forallb team_readable (match_teams m)); cbn [andb];
    [|destruct Hfold as [e ->]; now eexists].
  rewrite Hfold. cbn [bind teams flags scores round_texts app].
  destruct (match_teams m) as [|t1 [|t2 rest]].
  - cbn. destruct (match_event_node m); [|now eexists].
    destruct (match_series_node m); [|now eexists].
    destruct (match_tz_node m) as [attrs|]; [|now eexists]. cbn.
    destruct (dict_get "data-utc-ts" attrs) as [[x|]|]; try (now eexists). cbn.
    destruct (py_int L x); [|now eexists]. cbn.
    destruct (strftime_utc L z); [|now eexists]. cbn.
    destruct (dict_get "href" (match_attributes m)) as [[h|]|]; now eexists.
  - cbn. destruct (match_event_node m); [|now eexists].
    destruct (match_series_node m); [|now eexists].
    destruct (match_tz_node m) as [attrs|]; [|now eexists]. cbn.
    destruct (dict_get "data-utc-ts" attrs) as [[x|]|]; try (now eexists). cbn.
    destruct (py_int L x); [|now eexists]. cbn.
    destruct (strftime_utc L z); [|now eexists]. cbn.
    destruct (dict_get "href" (match_attributes m)) as [[h|]|]; now eexists.
  - cbn [length Nat.leb andb map node_text node_attributes bind index nth_error nth].
    destruct (match_event_node m) as [ev|]; [|now eexists].
    destruct (match_series_node m) as [se|]; [|now eexists].
    destruct (match_tz_node m) as [attrs|]; [|now eexists].
    cbn [node_text node_attributes bind andb].
    destruct (dict_get "data-utc-ts" attrs) as [[x|]|]; try (now eexists). cbn [bind].
    destruct (py_int L x) as [n|]; [|now eexists]. cbn [bind].
    destruct (strftime_utc L n) as [ts|]; [|now eexists]. cbn [bind andb].
    destruct (dict_get "href" (match_attributes m)) as [[h|]|]; now eexists.
Qed.

End Extraction.

(** X9. A live row is extracted exactly when it is extractable: every
    team element has its name, flag class and score, there are at least
    two of them, the event and series elements exist, the timestamp
    attribute is read by [int] and formatted, and the anchor has an
    [href]. A row that is not becomes the empty record, which the batch
    drops; the round elements play no part in this. *)
Theorem row_dropped_iff_not_extractable (L : Libs) (self : VlrClient) (nt : Net)
    (m : MatchNode) :
  (_process_live_match_optimized L self nt m = [] <-> extractable L m = false) /\
  (extractable L m = true <->
   exists url_path, base_match_data L m = Ret (extracted_record L m, url_path)).
Proof.
  pose proof (base_match_data_spec L m) as Hspec.
  destruct (extractable L m).
  - destruct Hspec as (h & Hh & Hb). split.
    + split; [|discriminate]. intros Hempty.
      rewrite (process_extraction_success L self nt m _ _ Hb) in Hempty.
      now destruct (merged_record L m _ _ (_get_match_details L self nt ("https://www.vlr.gg/" +:+ h)) Hb)
        as (_ & Hne & _).
    + split; [intros _; eexists; exact Hb | intros _; reflexivity].
  - destruct Hspec as [e Hb]. split.
    + split; [intros _; reflexivity|]. intros _. now apply (process_extraction_failure L self nt m e).
    + split; [discriminate|]. intros [url_path Hret]. rewrite Hb in Hret. discriminate.
Qed.

(** ** The records of a live response *)

Section Records.
Context (L : Libs) (self : VlrClient) (nt : Net).

Lemma logos_have_scheme (imgs : list Attrs) (logos : list string) :
  mapM (fun img : Attrs =>
          match dict_get "src" img with
          | None => Ret ("https:" +:+ "")
          | Some (Some src) => Ret ("https:" +:+ src)
          | Some None => Raise (TypeError "can only concatenate str (not NoneType) to str")
          end) imgs = Ret logos ->
  Forall (fun logo => String.prefix "https:" logo = true) logos /\
  length logos = length imgs.
Proof.
  revert logos. induction imgs as [|img imgs IH]; intros logos Hm; cbn in Hm.
  - injection Hm as <-. split; [constructor | reflexivity].
  - bind_inv Hm. injection Hm as <-.
    destruct (IH _ eq_refl) as [Hall Hlen]. split; [|cbn; now rewrite Hlen].
    constructor; [|exact Hall].
    destruct (dict_get "src" img) as [[src|]|]; try discriminate;
      injection E as <-; [destruct src|]; reflexivity.
Qed.

(** The details of a match page always come with both map fields
    ["Unknown"]. *)
Lemma details_maps_unknown (url_path : string) :
  exists logos,
    _get_match_details L self nt url_path = (logos, "Unknown", "Unknown") /\
    Forall (fun logo => String.prefix "https:" logo = true) logos.
Proof.
  unfold _get_match_details.
  destruct (_make_request self nt url_path 3) as [[[|c html_text]|]|e];
    cbn [bind try_except]; try (exists []; split; [reflexivity | constructor]).
  destruct (mapM _ (doc_header_imgs (HTMLParser L (String c html_text)))) as [logos|e] eqn:Hm;
    cbn [bind try_except]; [|exists []; split; [reflexivity | constructor]].
  destruct (doc_current_map (HTMLParser L (String c html_text))) as [[x|]|]; cbn [try_except];
    try (exists []; split; [reflexivity | constructor]).
  exists logos. split; [reflexivity|]. now apply (logos_have_scheme _ _ Hm).
Qed.

(** The record of an extractable row: its listing fields, the logos of
    its match page, and the map fields. *)
Lemma process_extractable (m : MatchNode) :
  extractable L m = true ->
  exists logos,
    _process_live_match_optimized L self nt m =
    merge_details (extracted_record L m) (logos, "Unknown", "Unknown") /\
    Forall (fun logo => String.prefix "https:" logo = true) logos.
Proof.
  intros Hex. pose proof (base_match_data_spec L m) as Hspec. rewrite Hex in Hspec.
  destruct Hspec as (h & _ & Hb).
  destruct (details_maps_unknown ("https://www.vlr.gg/" +:+ h)) as (logos & Hd & Hall).
  exists logos. split; [|exact Hall].
  rewrite (process_extraction_success L self nt m _ _ Hb). now rewrite Hd.
Qed.

Lemma process_empty_iff (m : MatchNode) :
  _process_live_match_optimized L self nt m = [] <-> extractable L m = false.
Proof.
  destruct (extractable L m) eqn:Hex.
  - destruct (process_extractable m Hex) as (logos & -> & _). split; discriminate.
  - pose proof (base_match_data_spec L m) as Hspec. rewrite Hex in Hspec.
    destruct Hspec as [e Hb]. split; [reflexivity|]. intros _.
    now apply (process_extraction_failure L self nt m e).
Qed.

(** The valid results of a batch are the records of its extractable
    rows, in listing order. *)
Lemma valid_results_extractable (live : list MatchNode) :
  valid_results (map (_process_live_match_optimized L self nt) live) =
  map (_process_live_match_optimized L self nt) (List.filter (extractable L) live).
Proof.
  induction live as [|m live IH]; [reflexivity|].
  cbn [map List.filter valid_results]. fold (valid_results (map (_process_live_match_optimized L self nt) live)).
  destruct (extractable L m) eqn:Hex.
  - destruct (process_extractable m Hex) as (logos & Hp & _).
    rewrite Hp at 1. cbn [map]. now rewrite IH.
  - apply process_empty_iff in Hex. rewrite Hex. exact IH.
Qed.

(** The annotation of the record of an extractable row appends one
    field. *)
Lemma annotate_extractable_record (m : MatchNode) (idx : nat) :
  extractable L m = true ->
  let r := _process_live_match_optimized L self nt m in
  score_line r = Ret (line_of r) /\
  dict_set (key_name idx) (line_of r) r = annotated idx r /\
  map fst r = summary_fields.
Proof.
  intros Hex. cbv zeta. destruct (process_extractable m Hex) as (logos & -> & _).
  repeat split; try reflexivity. destruct idx; reflexivity.
Qed.

Lemma annotate_extractable (rows : list MatchNode) (idx : nat) :
  forallb (extractable L) rows = true ->
  annotate idx (map (_process_live_match_optimized L self nt) rows) =
  Ret (imap (fun i m => annotated (idx + i) (_process_live_match_optimized L self nt m)) rows).
Proof.
  revert idx. induction rows as [|m rows IH]; intros idx Hall; [reflexivity|].
  cbn [forallb] in Hall. apply andb_true_iff in Hall as [Hex Hall].
  destruct (annotate_extractable_record m idx Hex) as (Hline & Hset & _). cbv zeta in *.
  cbn [map annotate]. rewrite Hline. cbn [bind]. rewrite (IH (S idx) Hall). cbn [bind].
  rewrite Hset. cbn [imap]. rewrite Nat.add_0_r. do 2 f_equal.
  apply imap_ext. intros i x _. cbn. now rewrite Nat.add_succ_r.
Qed.

Lemma forallb_filter {A : Type} (f : A -> bool) (l : list A) :
  forallb f (List.filter f l) = true.
Proof.
  induction l as [|a l IH]; [reflexivity|]. cbn. destruct (f a) eqn:Hf; [|exact IH].
  cbn. now rewrite Hf.
Qed.

(** The response for a listing with live rows. *)
Lemma live_response (html_text : string) (live : list MatchNode) :
  _make_request self nt "https://www.vlr.gg" 3 = Ret (Some html_text) ->
  html_text <> "" ->
  List.filter match_eta_live (doc_home_matches (HTMLParser L html_text)) = live ->
  live <> [] ->
  get_live_matches_optimized L self nt =
  success_envelope
    (imap (fun i m => annotated i (_process_live_match_optimized L self nt m))
          (List.filter (extractable L) live)).
Proof.
  intros Hf Hne Hlive Hnonempty.
  destruct (batch_result L self nt html_text live Hf Hne Hlive Hnonempty) as (records & Ha & ->).
  rewrite valid_results_extractable, annotate_extractable in Ha by apply forallb_filter.
  injection Ha as <-. reflexivity.
Qed.

End Records.



(** X11. The details of a match page never name a map: whatever the page
    and the network, [_get_match_details] returns ["Unknown"] for the
    current map and for the map number, and every logo it returns starts
    with ["https:"]. *)
Theorem details_never_name_a_map (L : Libs) (self : VlrClient) (nt : Net)
    (url_path : string) :
  exists logos,
    _get_match_details L self nt url_path = (logos, "Unknown", "Unknown") /\
    Forall (fun logo => String.prefix "https:" logo = true) logos.
Proof. apply details_maps_unknown. Qed.

(** X12. For a match page that was fetched: when the page has the tab of
    the live map, the details are the defaults and its logos are lost;
    when it has none and no image lacks the value of its [src], the logos
    are the sources of the header images, in page order, each after
    ["https:"]. *)
Theorem details_of_fetched_page (L : Libs) (self : VlrClient) (nt : Net)
    (url_path html_text : string)
    (Hfetch : _make_request self nt url_path 3 = Ret (Some html_text))
    (Hbody : html_text <> "") :
  (doc_current_map (HTMLParser L html_text) <> None ->
   _get_match_details L self nt url_path = ([], "Unknown", "Unknown")) /\
  (doc_current_map (HTMLParser L html_text) = None ->
   forallb src_usable (doc_header_imgs (HTMLParser L html_text)) = true ->
   _get_match_details L self nt url_path =
   (map logo_of (doc_header_imgs (HTMLParser L html_text)), "Unknown", "Unknown")).
Proof.
  unfold _get_match_details. rewrite Hfetch. cbn [bind].
  destruct html_text as [|c html_text]; [contradiction|].
  set (doc := HTMLParser L (String c html_text)). split.
  - intros Htab. destruct (mapM _ (doc_header_imgs doc)) as [logos|e];
      cbn [bind try_except]; [|reflexivity].
    destruct (doc_current_map doc) as [[x|]|]; [reflexivity | reflexivity | contradiction].
  - intros Htab Hsrc. rewrite Htab.
    assert (Hm : forall imgs, forallb src_usable imgs = true ->
               mapM (fun img : Attrs =>
                       match dict_get "src" img with
                       | None => Ret ("https:" +:+ "")
                       | Some (Some src) => Ret ("https:" +:+ src)
                       | Some None =>
                           Raise (TypeError "can only concatenate str (not NoneType) to str")
                       end) imgs = Ret (map logo_of imgs)).
    { induction imgs as [|img imgs IH]; [reflexivity|]. cbn [forallb mapM map].
      intros Hall. apply andb_true_iff in Hall as [Hi Hall]. rewrite (IH Hall).
      unfold src_usable, logo_of in *.
      destruct (dict_get "src" img) as [[src|]|]; [reflexivity | discriminate | reflexivity]. }
    rewrite (Hm _ Hsrc). reflexivity.
Qed.

Lemma details_of_fetched_page_witness :
  _get_match_details sample_libs_bis (__aenter__ new_client) net_live
    "https://www.vlr.gg//1/sen-vs-fnc" = ([], "Unknown", "Unknown").
Proof.
  apply (details_of_fetched_page sample_libs_bis (__aenter__ new_client) net_live
           "https://www.vlr.gg//1/sen-vs-fnc" "<match page>").
  - reflexivity.
  - discriminate.
  - discriminate.
Defined.

Lemma dict_get_app_fresh {V : Type} (k : string) (v : V) (d : list (string * V)) :
  dict_get k d = None -> dict_get k (d ++ [(k, v)]) = Some v.
Proof.
  induction d as [|[k' v'] d IH]; cbn [dict_get app].
  - intros _. now rewrite String.eqb_refl.
  - destruct (String.eqb k k'); [discriminate | exact IH].
Qed.

(** X13. For a fetched listing with live rows the response is a success
    whose data are the records of the extractable live rows, in listing
    order, the record at position [i] with the annotation appended under
    [klurgecustom] (position 0) or [klurgecustom] followed by [i + 1]:
    twenty fields each, the score line made of the record's own team and
    score fields, and the map fields ["Unknown"]. *)
Theorem live_response_records (L : Libs) (self : VlrClient) (nt : Net)
    (html_text : string) (live : list MatchNode)
    (Hfetch : _make_request self nt "https://www.vlr.gg" 3 = Ret (Some html_text))
    (Hbody : html_text <> "")
    (Hlive : List.filter match_eta_live (doc_home_matches (HTMLParser L html_text)) = live)
    (Hsome : live <> []) :
  let process := _process_live_match_optimized L self nt in
  let records := imap (fun i m => annotated i (process m)) (List.filter (extractable L) live) in
  get_live_matches_optimized L self nt = success_envelope records /\
  (length records <= length live)%nat /\
  forall i r, records !! i = Some r ->
    map fst r = summary_fields ++ [key_name i] /\
    dict_get (key_name i) r =
      Some (field "team1" r +:+ " " +:+ field "score1" r +:+ " : " +:+
            field "team2" r +:+ " " +:+ field "score2" r) /\
    field "map_number" r = "Unknown" /\ field "current_map" r = "Unknown" /\
    field "time_until_match" r = "LIVE".
Proof.
  cbv zeta. split; [exact (live_response L self nt html_text live Hfetch Hbody Hlive Hsome)|].
  split.
  - rewrite length_imap. apply List.filter_length_le.
  - intros i r Hr. rewrite list_lookup_imap in Hr.
    destruct (List.filter (extractable L) live !! i) as [m|] eqn:Hm; [|discriminate].
    injection Hr as <-.
    assert (Hex : extractable L m = true).
    { apply list_elem_of_lookup_2, list_elem_of_In, List.filter_In in Hm. tauto. }
    destruct (process_extractable L self nt m Hex) as (logos & -> & _).
    unfold annotated, line_of. split; [reflexivity|]. split.
    + rewrite dict_get_app_fresh by (destruct i; reflexivity). reflexivity.
    + repeat split; reflexivity.
Qed.

Lemma live_response_records_witness :
  get_live_matches_optimized sample_libs (__aenter__ new_client) net_live =
  success_envelope
    (imap (fun i m => annotated i
                        (_process_live_match_optimized sample_libs (__aenter__ new_client)
                           net_live m))
          (List.filter (extractable sample_libs) [sample_match_a; sample_match_b; sample_match_c])).
Proof.
  apply (live_response_records sample_libs (__aenter__ new_client) net_live "<home live>"
           [sample_match_a; sample_match_b; sample_match_c]).
  - reflexivity.
  - discriminate.
  - reflexivity.
  - discriminate.
Defined.

(** X14. When the listing has live rows and none of them is extractable,
    the scraper answers success with an empty data list, not with the
    sentinel record, and on a cache miss the endpoint answers
    ["No live matches currently available."]. *)
Theorem no_extractable_row_gives_empty_data (L : Libs) (client : VlrClient) (w : World)
    (html_text : string) (live : list MatchNode)
    (Hmiss : _get_from_cache (__aenter__ client) "live_matches" (clock_check w) = None)
    (Hfetch : _make_request (__aenter__ client) (net w) "https://www.vlr.gg" 3
              = Ret (Some html_text))
    (Hbody : html_text <> "")
    (Hlive : List.filter match_eta_live (doc_home_matches (HTMLParser L html_text)) = live)
    (Hsome : live <> [])
    (Hnone : List.filter (extractable L) live = []) :
  get_live_matches_optimized L (__aenter__ client) (net w) =
    PDict [("status", PStr "success"); ("data", PList [])] /\
  snd (vlr_router.get_live_matches L client w) = Ret vlr_router.no_live_matches.
Proof.
  pose proof (live_response L (__aenter__ client) (net w) html_text live
                Hfetch Hbody Hlive Hsome) as Hres.
  rewrite Hnone in Hres. cbn in Hres. split; [exact Hres|].
  apply router_lacks_data. rewrite (get_live_matches_miss L _ w Hmiss). cbn [snd].
  now rewrite Hres.
Qed.

Lemma no_extractable_row_gives_empty_data_witness :
  get_live_matches_optimized sample_libs_bis (__aenter__ new_client) net_broken =
    PDict [("status", PStr "success"); ("data", PList [])] /\
  snd (vlr_router.get_live_matches sample_libs_bis new_client
         {| net := net_broken; clock_check := 0; clock_store := 1000000 |})
  = Ret vlr_router.no_live_matches.
Proof.
  apply (no_extractable_row_gives_empty_data sample_libs_bis new_client
           {| net := net_broken; clock_check := 0; clock_store := 1000000 |}
           "<home broken>" [sample_match_b]).
  - reflexivity.
  - reflexivity.
  - discriminate.
  - reflexivity.
  - discriminate.
  - reflexivity.
Defined.

(** ** The live endpoint as a whole *)

Section LiveEndpoint.
Context (L : Libs).

Lemma cache_ok_aenter (client : VlrClient) : cache_ok client -> cache_ok (__aenter__ client).
Proof. intros Hok entry Hentry. now apply Hok. Qed.

Lemma cache_ok_set (self : VlrClient) (v : pyval) (now : Z) :
  is_envelope v -> cache_ok (_set_cache self "live_matches" v now).
Proof.
  intros Hv entry Hentry. rewrite lookup_set_cache in Hentry. now injection Hentry as <-.
Qed.

(** The aggregator keeps results of the scraper in the cache, and returns
    one. *)
Lemma get_live_matches_envelope (self : VlrClient) (w : World) :
  cache_ok self ->
  cache_ok (fst (get_live_matches L self w)) /\
  is_envelope (snd (get_live_matches L self w)) /\
  session (fst (get_live_matches L self w)) = session self.
Proof.
  intros Hok. unfold get_live_matches, _get_from_cache, _is_cache_valid.
  pose proof (scraper_result_envelope L self (net w)) as Henv.
  destruct (_cache self !! "live_matches") as [entry|] eqn:Hentry.
  - destruct (clock_check w - timestamp entry <? timedelta_seconds _cache_ttl); cbn.
    + destruct (truthy (data entry)); cbn [fst snd].
      * split; [exact Hok|]. split; [now apply Hok | reflexivity].
      * split; [now apply cache_ok_set|]. split; [exact Henv | reflexivity].
    + split; [now apply cache_ok_set|]. split; [exact Henv | reflexivity].
  - cbn. split; [now apply cache_ok_set|]. split; [exact Henv | reflexivity].
Qed.

End LiveEndpoint.

(** X15. As long as the cache holds results of the scraper (it does from
    a new client on, and every call keeps it so), the live endpoint never
    reports an error: its response is a JSON body of status ["success"]
    with a data list, whether the listing was fetched or not. *)
Theorem live_endpoint_always_success (L : Libs) (client : VlrClient) (w : World)
    (Hok : cache_ok client) :
  cache_ok new_client /\
  cache_ok (fst (vlr_router.get_live_matches L client w)) /\
  exists d items,
    snd (vlr_router.get_live_matches L client w) = Ret (PDict d) /\
    dict_get "status" d = Some (PStr "success") /\
    dict_get "data" d = Some (PList items).
Proof.
  split; [intros entry Hentry; discriminate|].
  destruct (get_live_matches_envelope L (__aenter__ client) w (cache_ok_aenter client Hok))
    as (Hok' & Henv & _).
  unfold vlr_router.get_live_matches.
  destruct (get_live_matches L (__aenter__ client) w) as [client' result]. cbn [fst snd] in *.
  destruct Henv as [[message ->]|[records ->]].
  - cbn. split; [exact Hok'|]. now do 2 eexists.
  - destruct records as [|r records]; cbn; (split; [exact Hok'|]); now do 2 eexists.
Qed.

Lemma live_endpoint_always_success_witness :
  exists d items,
    snd (vlr_router.get_live_matches sample_libs new_client
           {| net := net_down; clock_check := 0; clock_store := 4000000 |}) = Ret (PDict d) /\
    dict_get "status" d = Some (PStr "success") /\
    dict_get "data" d = Some (PList items).
Proof.
  apply (live_endpoint_always_success sample_libs new_client
           {| net := net_down; clock_check := 0; clock_store := 4000000 |}).
  intros entry Hentry. discriminate.
Defined.

(** ** Looking a match up *)

Lemma dict_get_of_summary (k : string) (r : MatchSummary) :
  dict_get k (map (fun kv => (fst kv, PStr (snd kv))) r) = PStr <$> dict_get k r.
Proof.
  induction r as [|[k' v] r IH]; [reflexivity|]. cbn.
  now destruct (String.eqb k k').
Qed.

(** Whether the page of a record has the id in it. *)
Lemma page_test (match_id : string) (r : MatchSummary) :
  py_in match_id
    (match dict_get "match_page" (map (fun kv => (fst kv, PStr (snd kv))) r) with
     | Some v => v
     | None => PStr ""
     end) = contains match_id (field "match_page" r).
Proof.
  rewrite dict_get_of_summary. unfold field.
  now destruct (dict_get "match_page" r).
Qed.

Lemma find_match_first (match_id : string) (pre post : list MatchSummary) (rec : MatchSummary) :
  forallb (fun r => negb (contains match_id (field "match_page" r))) pre = true ->
  contains match_id (field "match_page" rec) = true ->
  find_match match_id (map of_summary (pre ++ rec :: post)) = Ret (Some (of_summary rec)).
Proof.
  intros Hpre Hrec. induction pre as [|r pre IH]; cbn [app map find_match of_summary].
  - now rewrite page_test, Hrec.
  - cbn [forallb] in Hpre. apply andb_true_iff in Hpre as [Hr Hpre].
    rewrite page_test. apply negb_true_iff in Hr. rewrite Hr. now apply IH.
Qed.

Lemma find_match_none (match_id : string) (records : list MatchSummary) :
  forallb (fun r => negb (contains match_id (field "match_page" r))) records = true ->
  find_match match_id (map of_summary records) = Ret None.
Proof.
  induction records as [|r records IH]; [reflexivity|]. cbn [forallb map find_match of_summary].
  intros Hall. apply andb_true_iff in Hall as [Hr Hall].
  rewrite page_test. apply negb_true_iff in Hr. rewrite Hr. now apply IH.
Qed.

Lemma make_request_session (s1 s2 : VlrClient) (nt : Net) (url : string) (n : nat) :
  session s1 = session s2 -> _make_request s1 nt url n = _make_request s2 nt url n.
Proof. intros Hs. unfold _make_request, _make_request_trace. now rewrite Hs. Qed.

Section LookupFacts.
Context (L : Libs) (match_header : string -> MatchHeader).

Lemma direct_session (s1 s2 : VlrClient) (nt : Net) (match_id : string) :
  session s1 = session s2 ->
  _get_match_directly L match_header s1 nt match_id =
  _get_match_directly L match_header s2 nt match_id.
Proof.
  intros Hs. unfold _get_match_directly.
  now rewrite (make_request_session s1 s2 nt _ 3 Hs).
Qed.

(** The direct lookup answers an error result or a success result. *)
Lemma direct_result (self : VlrClient) (nt : Net) (match_id : string) :
  (exists message, _get_match_directly L match_header self nt match_id = error_envelope message) \/
  (exists record, _get_match_directly L match_header self nt match_id =
                  PDict [("status", PStr "success"); ("data", record)]).
Proof.
  unfold _get_match_directly.
  destruct (_make_request self nt ("https://www.vlr.gg/" +:+ match_id) 3)
    as [[[|c html_text]|]|e]; cbn [bind try_except]; try (left; now eexists).
  right. now eexists.
Qed.

(** So does the lookup by id. *)
Lemma lookup_result (self : VlrClient) (w : World) (match_id : string) :
  (exists message,
     snd (get_match_by_id L match_header self w match_id) = error_envelope message) \/
  (exists record,
     snd (get_match_by_id L match_header self w match_id) =
     PDict [("status", PStr "success"); ("data", record)]).
Proof.
  unfold get_match_by_id, get_match_by_id_optimized.
  destruct (get_live_matches L self w) as [self' live].
  destruct (search_live live match_id) as [[found|]|e]; cbn [snd].
  - right. now eexists.
  - apply direct_result.
  - left. now eexists.
Qed.

End LookupFacts.

(** X16. When the live matches are a success and some record has the id
    in its [match_page], the lookup returns the first such record of the
    list as it stands, annotation included, under status ["success"]; no
    match page is fetched for it. *)
Theorem lookup_returns_first_live_match (L : Libs) (match_header : string -> MatchHeader)
    (self : VlrClient) (w : World) (match_id : string)
    (pre post : list MatchSummary) (rec : MatchSummary)
    (Hlive : snd (get_live_matches L self w) = success_envelope (pre ++ rec :: post))
    (Hpre : forallb (fun r => negb (contains match_id (field "match_page" r))) pre = true)
    (Hrec : contains match_id (field "match_page" rec) = true) :
  get_match_by_id L match_header self w match_id =
  (fst (get_live_matches L self w),
   PDict [("status", PStr "success"); ("data", of_summary rec)]).
Proof.
  unfold get_match_by_id, get_match_by_id_optimized.
  destruct (get_live_matches L self w) as [self' live]. cbn [fst snd] in *. subst live.
  unfold search_live, success_envelope. cbn [status_is dict_get String.eqb Ascii.eqb Bool.eqb].
  cbn. now rewrite (find_match_first match_id pre post rec Hpre Hrec).
Qed.

Lemma lookup_returns_first_live_match_witness :
  let self := __aenter__ new_client in
  let w := {| net := net_live; clock_check := 0; clock_store := 1000000 |} in
  let process := _process_live_match_optimized sample_libs self net_live in
  get_match_by_id sample_libs sample_header self w "3/loud" =
  (fst (get_live_matches sample_libs self w),
   PDict [("status", PStr "success");
          ("data", of_summary (annotated 1 (process sample_match_c)))]).
Proof.
  apply (lookup_returns_first_live_match sample_libs sample_header (__aenter__ new_client)
           {| net := net_live; clock_check := 0; clock_store := 1000000 |} "3/loud"
           [annotated 0 (_process_live_match_optimized sample_libs (__aenter__ new_client)
                           net_live sample_match_a)]
           []
           (annotated 1 (_process_live_match_optimized sample_libs (__aenter__ new_client)
                           net_live sample_match_c))).
  - vm_compute. reflexivity.
  - vm_compute. reflexivity.
  - vm_compute. reflexivity.
Defined.

(** X17. When no live record has the id in its page (or the live matches
    are an error result) and the page of the id cannot be fetched, the
    lookup answers the error result ["Match <id> not found"], and the
    endpoint turns it into a 404 with that text as its detail. *)
Theorem unknown_match_is_404 (L : Libs) (match_header : string -> MatchHeader)
    (client : VlrClient) (w : World) (match_id : string)
    (Hok : cache_ok client)
    (Habsent : forall records,
       snd (get_live_matches L (__aenter__ client) w) = success_envelope records ->
       forallb (fun r => negb (contains match_id (field "match_page" r))) records = true)
    (Hdirect : _make_request (__aenter__ client) (net w) ("https://www.vlr.gg/" +:+ match_id) 3
               = Ret None) :
  snd (get_match_by_id L match_header (__aenter__ client) w match_id) =
    error_envelope ("Match " +:+ match_id +:+ " not found") /\
  snd (get_match_details L match_header client w match_id) =
    HttpError 404 (PStr ("Match " +:+ match_id +:+ " not found")).
Proof.
  destruct (get_live_matches_envelope L (__aenter__ client) w (cache_ok_aenter client Hok))
    as (_ & Henv & Hsession).
  assert (Hlookup : snd (get_match_by_id L match_header (__aenter__ client) w match_id) =
                    error_envelope ("Match " +:+ match_id +:+ " not found")).
  { unfold get_match_by_id, get_match_by_id_optimized.
    destruct (get_live_matches L (__aenter__ client) w) as [self' live]. cbn [fst snd] in *.
    assert (Hsearch : search_live live match_id = Ret None).
    { destruct Henv as [[message ->]|[records ->]]; [reflexivity|].
      unfold search_live, success_envelope. cbn.
      apply find_match_none. now apply Habsent. }
    rewrite Hsearch. cbn [snd].
    rewrite (direct_session L match_header self' (__aenter__ client) (net w) match_id Hsession).
    unfold _get_match_directly. now rewrite Hdirect. }
  split; [exact Hlookup|].
  unfold get_match_details.
  destruct (get_match_by_id L match_header (__aenter__ client) w match_id) as [client' result].
  cbn [snd] in Hlookup. subst result. reflexivity.
Qed.

Lemma unknown_match_is_404_witness :
  snd (get_match_details sample_libs sample_header new_client
         {| net := net_down; clock_check := 0; clock_store := 4000000 |} "551847") =
  HttpError 404 (PStr "Match 551847 not found").
Proof.
  apply (unknown_match_is_404 sample_libs sample_header new_client
           {| net := net_down; clock_check := 0; clock_store := 4000000 |} "551847").
  - intros entry Hentry. discriminate.
  - intros records Hrecords. discriminate.
  - reflexivity.
Defined.



(** X19. Whatever the lookup returns, the match endpoint has two outcomes
    only: a JSON body of status ["success"], or a 404 whose detail is the
    message of the error result. It never hands an error result on as a
    body. *)
Theorem match_endpoint_outcomes (L : Libs) (match_header : string -> MatchHeader)
    (client : VlrClient) (w : World) (match_id : string) :
  (exists record,
     snd (get_match_details L match_header client w match_id) =
     Json (PDict [("status", PStr "success"); ("data", record)])) \/
  (exists message,
     snd (get_match_by_id L match_header (__aenter__ client) w match_id) =
       error_envelope message /\
     snd (get_match_details L match_header client w match_id) = HttpError 404 (PStr message)).
Proof.
  unfold get_match_details.
  pose proof (lookup_result L match_header (__aenter__ client) w match_id) as Hres.
  destruct (get_match_by_id L match_header (__aenter__ client) w match_id) as [client' result].
  cbn [snd] in *. destruct Hres as [[message ->]|[record ->]].
  - right. exists message. split; reflexivity.
  - left. exists record. reflexivity.
Qed.

(** ** More on the statistics *)

Section StatsMore.
Import performance.
Import inflight.
Context {R : Type} `{PyNumber R}.

Lemma on_leave_track_request (func : res unit) (start_time end_time : R) (st : Stats R) :
  fst (track_request func start_time end_time st) =
  on_leave func start_time end_time (on_enter st).
Proof.
  unfold track_request, on_leave. destruct func as [result|e]; [|reflexivity].
  now destruct (successful_requests (count_success (on_enter st)) =? 0).
Qed.

(** The balance of the counters along any interleaving of the halves of
    tracked calls. *)
Lemma run_phases_balance (ps : list phase) (st : Stats R) :
  0 <= successful_requests st ->
  0 <= successful_requests (run_phases ps st) /\
  total_requests (run_phases ps st) - successful_requests (run_phases ps st)
    - failed_requests (run_phases ps st)
  = total_requests st - successful_requests st - failed_requests st + pending ps.
Proof.
  revert st. induction ps as [|p ps IH]; intros st Hs; [cbn; lia|].
  cbn [run_phases fold_left pending]. fold (run_phases ps (phase_step st p)).
  destruct p as [|[result|e] start_time end_time]; cbn [phase_step on_leave].
  - destruct (IH (on_enter st)) as [IH0 IH1]; [exact Hs|]. cbn in IH1. lia.
  - destruct (Z.eqb_spec (successful_requests (count_success st)) 0) as [H0|H0];
      [cbn in H0; lia|].
    destruct (IH (update_average (num_sub end_time start_time) (count_success st)))
      as [IH0 IH1]; [cbn; lia|]. cbn in IH1. lia.
  - destruct (IH (on_exception st)) as [IH0 IH1]; [exact Hs|]. cbn in IH1. lia.
Qed.

Lemma run_calls_total (l : list (res unit * R * R)) (st : Stats R) :
  0 <= successful_requests st ->
  total_requests (run (calls l) st) = total_requests st + Z.of_nat (length l) /\
  successful_requests (run (calls l) st) = successful_requests st + returned (calls l) /\
  failed_requests (run (calls l) st)
  = failed_requests st + (Z.of_nat (length l) - returned (calls l)).
Proof.
  revert st. induction l as [|[[func start_time] end_time] l IH]; intros st Hs; [cbn; lia|].
  cbn [calls map fst snd run fold_left step length]. fold (calls l).
  fold (run (calls l) (fst (track_request func start_time end_time st))).
  destruct func as [[]|e].
  - rewrite track_request_returns by exact Hs.
    destruct (IH (update_average (num_sub end_time start_time) (count_success (on_enter st))))
      as (IHt & IHs & IHf); [cbn; lia|].
    cbn [returned fst]. cbn in IHt, IHs, IHf. lia.
  - cbn [track_request fst].
    destruct (IH (on_exception (on_enter st))) as (IHt & IHs & IHf); [exact Hs|].
    cbn [returned]. cbn in IHt, IHs, IHf. lia.
Qed.

End StatsMore.

(** X20. The live endpoint under [track_request] always counts as a
    successful request: whatever the network answers (responses, timeouts
    or client errors), the wrapper hands the JSON body of the handler on, adds one to [total_requests] and to
    [successful_requests], and leaves [failed_requests] as it is. *)
Theorem tracked_live_endpoint_counts_success (R : Type) (N : performance.PyNumber R)
    (L : Libs) (client : VlrClient) (w : World) (start_time end_time : R)
    (ops : list (performance.op (R := R))) :
  let st := performance.run ops performance.performance_stats in
  let out := tracked_get_live_matches L client w start_time end_time st in
  snd out = snd (vlr_router.get_live_matches L client w) /\
  (exists body, snd out = Ret body) /\
  performance.total_requests (snd (fst out)) = performance.total_requests st + 1 /\
  performance.successful_requests (snd (fst out)) = performance.successful_requests st + 1 /\
  performance.failed_requests (snd (fst out)) = performance.failed_requests st.
Proof.
  cbv zeta. destruct (run_sound ops _ initial_sound) as (Hs & _ & _).
  unfold tracked_get_live_matches.
  assert (Hret : exists body, snd (vlr_router.get_live_matches L client w) = Ret body).
  { unfold vlr_router.get_live_matches.
    destruct (get_live_matches L (__aenter__ client) w) as [client' result].
    destruct (vlr_router.lacks_data result); now eexists. }
  destruct (vlr_router.get_live_matches L client w) as [client' outcome]. cbn [snd] in Hret.
  destruct Hret as [body ->]. rewrite track_request_returns by exact Hs.
  cbn. repeat split; try reflexivity. now exists body.
Qed.

(** X21. Without the assumption that tracked calls run one after the
    other: after any interleaving of the two halves of the async wrapper
    (before and after its [await]), from the initial stats,
    [total_requests] is [successful_requests + failed_requests] plus the
    number of requests still in flight; a call run in one piece is its
    two halves in a row. *)
Theorem counters_balance_in_flight (R : Type) (N : performance.PyNumber R)
    (ps : list (inflight.phase (R := R)))
    (func : res unit) (start_time end_time : R) (st : performance.Stats R) :
  let now := inflight.run_phases ps performance.performance_stats in
  performance.total_requests now =
    performance.successful_requests now + performance.failed_requests now + inflight.pending ps /\
  fst (performance.track_request func start_time end_time st) =
    inflight.run_phases [inflight.Enter; inflight.Leave func start_time end_time] st.
Proof.
  cbv zeta. split; [|apply on_leave_track_request].
  destruct (run_phases_balance ps performance.performance_stats) as [_ Hb]; [cbn; lia|].
  cbn in Hb. lia.
Qed.

(** X22. After a history of tracked calls from reset, run one after the
    other, [total_requests] is the number of calls and [failed_requests]
    the number of those that raised. *)
Theorem counters_count_calls (R : Type) (N : performance.PyNumber R)
    (st0 : performance.Stats R) (history : list (res unit * R * R)) :
  let st := performance.run (performance.calls history)
              (performance.reset_performance_stats st0) in
  performance.total_requests st = Z.of_nat (length history) /\
  performance.failed_requests st =
    Z.of_nat (length history) - performance.returned (performance.calls history).
Proof.
  cbv zeta.
  destruct (run_calls_total history (performance.reset_performance_stats st0))
    as (Ht & _ & Hf); [cbn; lia|].
  cbn in Ht, Hf. split; lia.
Qed.

Section AverageBounds.
Import performance.
Local Open Scope Q_scope.

Lemma elapsed_sum_within (lo hi : Q) (l : list (res unit * Q * Q)) :
  elapsed_within lo hi l ->
  (0 <= returned (calls l))%Z /\
  lo * inject_Z (returned (calls l)) <= elapsed_sum (calls l) /\
  elapsed_sum (calls l) <= hi * inject_Z (returned (calls l)).
Proof.
  induction 1 as [|[[func start_time] end_time] l Hc _ IH].
  - cbn. split; [lia|]. change (inject_Z 0) with 0. split; lra.
  - destruct IH as (Hn & Hlo & Hhi). cbn [fst snd] in Hc.
    cbn [calls map fst snd]. fold (calls l). destruct func as [[]|e].
    + cbn [returned elapsed_sum]. split; [lia|].
      rewrite inject_Z_plus. cbn [num_add num_sub Q_number].
      destruct Hc as [Hc1 Hc2]. change (inject_Z 1) with 1.
      split; [rewrite Qmult_plus_distr_r | rewrite Qmult_plus_distr_r]; lra.
    + cbn [returned elapsed_sum]. split; [exact Hn|]. split; assumption.
Qed.

End AverageBounds.



(** ** The variant of the client *)

(** X24. [VlrClient._process_live_match] and the scraper's
    [_process_live_match_optimized] give the same record for every row:
    every field has the same value in both (they only write the fields in
    a different order), and one is the empty record exactly when the
    other is. *)
Theorem client_variant_agrees (L : Libs) (self : VlrClient) (nt : Net) (m : MatchNode) :
  (forall k, dict_get k (_process_live_match L self nt m) =
             dict_get k (_process_live_match_optimized L self nt m)) /\
  (_process_live_match L self nt m = [] <->
   _process_live_match_optimized L self nt m = []).
Proof.
  unfold _process_live_match, _process_live_match_optimized, base_match_data.
  destruct (foldM team_step _ (match_teams m)) as [acc|e]; cbn [bind try_except];
    [|split; [reflexivity | tauto]].
  destruct (node_text (match_event_node m)) as [ev|e]; cbn [bind try_except];
    [|split; [reflexivity | tauto]].
  destruct (node_text (match_series_node m)) as [se|e]; cbn [bind try_except];
    [|split; [reflexivity | tauto]].
  destruct (node_attributes (match_tz_node m)) as [attrs|e]; cbn [bind try_except];
    [|split; [reflexivity | tauto]].
  destruct (subscript attrs "data-utc-ts") as [ts_attr|e]; cbn [bind try_except];
    [|split; [reflexivity | tauto]].
  destruct (match ts_attr with Some s => _ | None => _ end) as [ts|e]; cbn [bind try_except];
    [|split; [reflexivity | tauto]].
  destruct (match strftime_utc L ts with Some s => _ | None => _ end) as [ts_text|e];
    cbn [bind try_except]; [|split; [reflexivity | tauto]].
  destruct (subscript (match_attributes m) "href") as [href|e]; cbn [bind try_except];
    [|split; [reflexivity | tauto]].
  destruct (match href with Some h => _ | None => _ end) as [url_path|e];
    cbn [bind try_except]; [|split; [reflexivity | tauto]].
  destruct (_get_match_details L self nt url_path) as [[team_logos current_map] map_number]
    eqn:Hdetails.
  destruct (index (teams acc) 0) as [team1|e]; cbn [bind try_except];
    [|split; [reflexivity | tauto]].
  destruct (index (teams acc) 1) as [team2|e]; cbn [bind try_except];
    [|split; [reflexivity | tauto]].
  destruct (index (flags acc) 0) as [flag1|e]; cbn [bind try_except];
    [|split; [reflexivity | tauto]].
  destruct (index (flags acc) 1) as [flag2|e]; cbn [bind try_except];
    [|split; [reflexivity | tauto]].
  destruct (index (scores acc) 0) as [score1|e]; cbn [bind try_except];
    [|split; [reflexivity | tauto]].
  destruct (index (scores acc) 1) as [score2|e]; cbn [bind try_except];
    [|split; [reflexivity | tauto]].
  rewrite Hdetails. unfold merge_details, dict_update.
  cbn [fold_left dict_set fst snd String.eqb Ascii.eqb Bool.eqb].
  split; [|split; discriminate].
  intros k. cbn [dict_get].
  repeat match goal with
         | |- context [String.eqb k ?s] =>
             destruct (String.eqb_spec k s) as [->|?]; [reflexivity|]
         end.
  reflexivity.
Qed.

(** ** The flag transform *)

Lemma prefix_16_inv (s : string) :
  String.prefix "16" s = true -> exists t, s = String "1" (String "6" t).
Proof.
  destruct s as [|c [|d t]]; cbn [String.prefix]; try discriminate.
  - destruct (ascii_dec "1" c); discriminate.
  - destruct (ascii_dec "1" c) as [<-|]; [|discriminate].
    destruct (ascii_dec "6" d) as [<-|]; [|discriminate]. intros _. now exists t.
Qed.

Lemma prefix_16_intro (t : string) : String.prefix "16" (String "1" (String "6" t)) = true.
Proof. destruct t; reflexivity. Qed.

Lemma replace_16_match (t : string) :
  replace_from "16" "_" (String "1" (String "6" t)) 0 = String "_" (replace_from "16" "_" t 0).
Proof. cbn [replace_from]. rewrite prefix_16_intro. reflexivity. Qed.

Lemma replace_16_other (c : ascii) (s : string) :
  String.prefix "16" (String c s) = false ->
  replace_from "16" "_" (String c s) 0 = String c (replace_from "16" "_" s 0).
Proof. intros Hp. cbn [replace_from]. now rewrite Hp. Qed.

Lemma replace_16_clean (n : nat) (s : string) :
  (String.length s <= n)%nat ->
  contains "16" (replace_from "16" "_" s 0) = false /\
  (forall t, replace_from "16" "_" s 0 = String "6" t -> exists t', s = String "6" t').
Proof.
  revert s. induction n as [|n IH]; intros s Hlen.
  - destruct s; [|cbn in Hlen; lia]. split; [reflexivity | discriminate].
  - destruct s as [|c s]; [split; [reflexivity | discriminate]|].
    cbn [String.length] in Hlen.
    destruct (String.prefix "16" (String c s)) eqn:Hp.
    + destruct (prefix_16_inv _ Hp) as [t Ht]. injection Ht as -> ->.
      rewrite replace_16_match. destruct (IH t) as [Hc _]; [cbn in Hlen; lia|]. split.
      * cbn [contains]. rewrite Hc. reflexivity.
      * discriminate.
    + rewrite (replace_16_other c s Hp). destruct (IH s) as [Hc Hhead]; [lia|]. split.
      * cbn [contains]. rewrite Hc, orb_false_r.
        destruct (String.prefix "16" (String c (replace_from "16" "_" s 0))) eqn:Hq;
          [|reflexivity].
        destruct (prefix_16_inv _ Hq) as [t Ht]. injection Ht as -> Ht.
        destruct (Hhead t Ht) as [t' ->]. now rewrite prefix_16_intro in Hp.
      * intros t Ht. injection Ht as -> _. now exists s.
Qed.

(** X25. Whatever the class string, the transformed flag token has no
    ["16"] left in it: every occurrence is replaced, and the replacement
    brings no new one. *)
Theorem flag_transform_leaves_no_16 (cls : string) :
  contains "16" (flag_transform cls) = false.
Proof.
  unfold flag_transform, replace at 1.
  now apply (replace_16_clean (String.length (replace " mod-" "" cls))).
Qed.
